(** * CodeGuardian: the ask-and-answer command line flow

    A shallow embedding of the four Python modules of the repository

      - [config/settings.py]  (module [Settings])
      - [utils/helpers.py]    (module [Helpers])
      - [agents/ai_agent.py]  (module [Agent])
      - [main.py]             (module [Main])

    Python text is a list of Unicode code points, values decoded from JSON
    are an inductive type whose objects are finite maps, and the effects of
    the program (standard output, the stream of the logging handlers, the
    files it opens, the calls of the client it makes) are the fields of an
    explicit state that is threaded through a state-and-exception monad.  Everything outside
    the repository -- the process environment when the settings module is
    imported and when the agent is constructed, what [open] and [json.load]
    do on a path, what a call of the client ends in, what standard output
    can encode -- is a field of a [world] record.  The [openai] package is
    taken to provide both names the agent module imports ([OpenAI] and
    [openai.error.OpenAIError]). *)

From Stdlib Require Import String Ascii List ZArith NArith QArith Lia Bool.
From stdpp Require Import base option list gmap.
Import ListNotations.

Local Open Scope N_scope.

(** ** Python text *)

Module PyStr.

(** A [str] is a sequence of code points. *)
Definition t : Type := list N.

(** A literal of the source, written as a Rocq string of ASCII characters. *)
Definition lit (s : string) : t := List.map N_of_ascii (list_ascii_of_string s).

(** [str.isspace] on one code point: the code points CPython's
    [_PyUnicode_IsWhitespace] accepts. *)
Definition isspace (c : N) : bool :=
  ((9 <=? c) && (c <=? 13)) || ((28 <=? c) && (c <=? 32))
  || (c =? 133) || (c =? 160) || (c =? 5760)
  || ((8192 <=? c) && (c <=? 8202))
  || (c =? 8232) || (c =? 8233) || (c =? 8239) || (c =? 8287) || (c =? 12288).

Fixpoint lstrip (s : t) : t :=
  match s with
  | [] => []
  | c :: s' => if isspace c then lstrip s' else s
  end.

Definition rstrip (s : t) : t := rev (lstrip (rev s)).

(** [s.strip()] with no argument. *)
Definition strip (s : t) : t := rstrip (lstrip s).

(** Truth value of a [str]: non-empty. *)
Definition truthy (s : t) : bool :=
  match s with [] => false | _ :: _ => true end.

(** The spec's "whitespace-only" (the empty text included). *)
Definition blank (s : t) : bool := forallb isspace s.

(** [s.isascii()]: every code point is below 128. *)
Definition isascii (s : t) : bool := forallb (fun c => c <? 128) s.

(** Text made of the six ASCII white space characters only: space, tab,
    line feed, vertical tab, form feed and carriage return. *)
Definition ascii_blank (s : t) : bool :=
  forallb (fun c => (c =? 32) || ((9 <=? c) && (c <=? 13))) s.

End PyStr.

Abbreviation pystr := PyStr.t.
Abbreviation py := PyStr.lit.

(** ** Values decoded from JSON *)

(** What [json.load] can return: [None], [bool], [int], [float] (kept as the
    rational it denotes), [str], [list] and [dict] with [str] keys. *)
#[warnings="-register-all"]
Inductive pyval : Type :=
| PyNone
| PyBool (b : bool)
| PyInt (z : Z)
| PyFloat (q : Q)
| PyStr (s : pystr)
| PyList (l : list pyval)
| PyDict (d : gmap pystr pyval).

(** [type(v).__name__], as it appears in an [AttributeError] message. *)
Definition type_name (v : pyval) : pystr :=
  match v with
  | PyNone => py "NoneType"
  | PyBool _ => py "bool"
  | PyInt _ => py "int"
  | PyFloat _ => py "float"
  | PyStr _ => py "str"
  | PyList _ => py "list"
  | PyDict _ => py "dict"
  end.

(** ** Exceptions *)

(** The classes of [openai]'s error hierarchy, all below [OpenAIError]. *)
Inductive openai_error : Type :=
| OpenAIError
| APIError
| APIConnectionError
| APITimeoutError
| APIResponseValidationError
| APIStatusError
| AuthenticationError
| RateLimitError.

(** The errors [open] raises, all below [OSError]. *)
Inductive os_error : Type :=
| OSError
| FileNotFoundError
| PermissionError
| IsADirectoryError.

(** The errors [json.load] raises on an open text file. *)
Inductive decode_error : Type :=
| JSONDecodeError
| UnicodeDecodeError
| RecursionError.

(** Exception classes below [Exception]. *)
Inductive exc_class : Type :=
| OSErr (k : os_error)
| DecodeErr (k : decode_error)
| AttributeError
| IndexError
| ValueError
| UnicodeEncodeError
| RuntimeError
| OpenAIErr (k : openai_error)
| OtherException (name : pystr).

(** A raised exception: [SystemExit] is a [BaseException] outside
    [Exception]; every other exception of the model is below [Exception] and
    carries its [str()]. *)
Inductive exn : Type :=
| SystemExit (code : Z)
| Exc (cls : exc_class) (msg : pystr).

(** [isinstance(e, Exception)]. *)
Definition is_Exception (e : exn) : bool :=
  match e with
  | SystemExit _ => false
  | Exc _ _ => true
  end.

(** [isinstance(e, OpenAIError)]. *)
Definition is_OpenAIError (e : exn) : bool :=
  match e with
  | Exc (OpenAIErr _) _ => true
  | _ => false
  end.

(** [str(e)]. *)
Definition exn_str (e : exn) : pystr :=
  match e with
  | SystemExit c => []
  | Exc _ msg => msg
  end.

(** [AttributeError] of an attribute access [v.attr] that does not exist. *)
Definition no_attribute (v : pyval) (attr : string) : exn :=
  Exc AttributeError
      (py "'" ++ type_name v ++ py "' object has no attribute '" ++ py attr ++ py "'").

(** ** The world outside the repository *)

(** An open text file, seen through the only use the program makes of it:
    what [json.load] does when it reads it. *)
Inductive text_file : Type :=
| Undecodable (k : decode_error) (msg : pystr)
| Decodes (v : pyval).

(** One role-tagged message of a chat-completion request. *)
Record message : Type := { role : pystr; content : pystr }.

(** The keyword arguments of one call of [client.chat.completions.create]. *)
Record request : Type :=
  { req_model : pystr; req_messages : list message; req_temperature : Q }.

Record chat_message : Type := { msg_role : pystr; msg_content : option pystr }.

Record choice : Type :=
  { index : Z; finish_reason : pystr; choice_message : chat_message }.

(** The completion object a call of [create] returns. *)
Record response : Type :=
  { resp_id : pystr; resp_model : pystr; choices : list choice }.

(** How one call of [client.chat.completions.create] ends.  The client that
    [OpenAI(api_key=...)] builds re-sends a request on its own after a
    connection failure or a 408, 409, 429 or 5xx answer (two retries by
    default): the result is that of the whole call, after the last
    attempt. *)
Inductive remote_result : Type :=
| CreateRaises (cls : exc_class) (msg : pystr)
| CreateReturns (r : response).

Record world : Type :=
  { (** [os.environ] when [config.settings] is imported *)
    import_environ : gmap pystr pystr;
    (** [os.environ] when the agent is constructed *)
    environ : gmap pystr pystr;
    (** [open(path, "r", encoding="utf-8")]: an [OSError] or a text file *)
    files : pystr -> (os_error * pystr) + text_file;
    (** what a call of the client's [create] ends in, given the credential
        of the client and the arguments of the call *)
    remote : pystr -> request -> remote_result;
    (** the message of the [UnicodeEncodeError] that writing a text to
        [sys.stdout] raises, if its encoding cannot encode the text; looked
        at for text with a code point outside ASCII only *)
    stdout_rejects : pystr -> option pystr;
    (** [repr(s)] of a [str] *)
    str_repr : pystr -> pystr }.

(** [os.getenv(name)], at the construction of the agent. *)
Definition getenv (w : world) (name : pystr) : option pystr := environ w !! name.

(** [os.getenv(name, default)], at the import of the settings module. *)
Definition getenv_default (w : world) (name default : pystr) : pystr :=
  match import_environ w !! name with
  | Some v => v
  | None => default
  end.

(** ** Program state and the monad of effects *)

(** A record emitted by a logging handler (the formatter's fields, the
    time stamp apart). *)
Record log_record : Type :=
  { rec_name : pystr; rec_level : N; rec_message : pystr; rec_exc : option exn }.

(** A logger of the process-wide registry: its level (0 is [NOTSET]) and the
    number of stream handlers attached to it, each at level [NOTSET] as
    [logging.StreamHandler()] makes them.  No code of the repository
    disables a logger, calls [logging.disable] or clears [propagate]: the
    model has no such flag. *)
Record logger_obj : Type := { level : N; handlers : nat }.

Record state : Type :=
  { (** the text written to [sys.stdout] *)
    stdout : pystr;
    (** the records written by logging handlers *)
    stderr : list log_record;
    (** the paths [open] was called on *)
    opened : list pystr;
    (** the calls of [client.chat.completions.create], by their arguments:
        one entry per call, however many requests the client put on the
        wire for it *)
    sent : list request;
    (** the loggers of [logging], by canonical name *)
    loggers : gmap pystr logger_obj }.

(** The calls of the client's [create] made so far. *)
Definition create_calls (st : state) : list request := sent st.

Definition initial_state : state :=
  {| stdout := []; stderr := []; opened := []; sent := []; loggers := ∅ |}.

Inductive result (A : Type) : Type :=
| Ret (a : A)
| Raise (e : exn).
Arguments Ret {A} a.
Arguments Raise {A} e.

Definition M (A : Type) : Type := state -> result A * state.

Definition ret {A} (a : A) : M A := fun st => (Ret a, st).

Definition raise {A} (e : exn) : M A := fun st => (Raise e, st).

Definition bind {A B} (m : M A) (k : A -> M B) : M B :=
  fun st =>
    match m st with
    | (Ret a, st') => k a st'
    | (Raise e, st') => (Raise e, st')
    end.

Declare Scope py_scope.
Delimit Scope py_scope with py.
Notation "x <- m ;; k" := (bind m (fun x => k))
  (at level 100, m at next level, right associativity) : py_scope.
Notation "m ;;; k" := (bind m (fun _ => k))
  (at level 100, right associativity) : py_scope.
Local Open Scope py_scope.

(** [try: body except C as e: handler e], where [catches e] is
    [isinstance(e, C)]. *)
Definition try_except {A} (body : M A) (catches : exn -> bool) (handler : exn -> M A) : M A :=
  fun st =>
    match body st with
    | (Ret a, st') => (Ret a, st')
    | (Raise e, st') => if catches e then handler e st' else (Raise e, st')
    end.

(** [sys.exit(code)]. *)
Definition sys_exit {A} (code : Z) : M A := raise (SystemExit code).

Definition newline : pystr := [10].

Definition write_stdout (s : pystr) (st : state) : state :=
  {| stdout := stdout st ++ s; stderr := stderr st;
     opened := opened st; sent := sent st; loggers := loggers st |}.

(** [print(s)]: [sys.stdout.write(s)], then the line break.  The write
    encodes the whole text first: when the encoding of standard output
    cannot encode it, a [UnicodeEncodeError] is raised and nothing of [s]
    is written.  ASCII text is encoded by every encoding of standard
    output. *)
Definition print (w : world) (s : pystr) : M unit :=
  fun st =>
    if PyStr.isascii s then (Ret tt, write_stdout (s ++ newline) st)
    else
      match stdout_rejects w s with
      | Some msg => (Raise (Exc UnicodeEncodeError msg), st)
      | None => (Ret tt, write_stdout (s ++ newline) st)
      end.

(** Standard output can encode the text: [print] of it succeeds. *)
Definition stdout_encodes (w : world) (s : pystr) : bool :=
  PyStr.isascii s
  || match stdout_rejects w s with
     | Some _ => false
     | None => true
     end.

(** The exit status of the interpreter for a script that ended with [r]. *)
Definition exit_status {A} (r : result A) : Z :=
  match r with
  | Ret _ => 0
  | Raise (SystemExit c) => c
  | Raise (Exc _ _) => 1
  end%Z.

(** ** The [logging] module, as far as the program uses it *)

Module Logging.

Definition DEBUG : N := 10.
Definition INFO : N := 20.
Definition WARNING : N := 30.
Definition ERROR : N := 40.
Definition CRITICAL : N := 50.

(** [logging._checkLevel] on a level name. *)
Definition check_level (name : pystr) : option N :=
  if decide (name = py "CRITICAL") then Some CRITICAL
  else if decide (name = py "FATAL") then Some CRITICAL
  else if decide (name = py "ERROR") then Some ERROR
  else if decide (name = py "WARN") then Some WARNING
  else if decide (name = py "WARNING") then Some WARNING
  else if decide (name = py "INFO") then Some INFO
  else if decide (name = py "DEBUG") then Some DEBUG
  else if decide (name = py "NOTSET") then Some 0
  else None.

Definition set_loggers (ls : gmap pystr logger_obj) (st : state) : state :=
  {| stdout := stdout st; stderr := stderr st; opened := opened st;
     sent := sent st; loggers := ls |}.

Definition emit (rs : list log_record) (st : state) : state :=
  {| stdout := stdout st; stderr := stderr st ++ rs; opened := opened st;
     sent := sent st; loggers := loggers st |}.

(** The name of the root logger. *)
Definition root : pystr := py "root".

(** The name a logger is registered under: the empty name and ["root"] both
    denote the root logger. *)
Definition canon (name : pystr) : pystr :=
  match name with
  | [] => root
  | _ :: _ => name
  end.

(** A logger that has not been touched yet: the root logger starts at
    [WARNING], every other logger at [NOTSET]; none has a handler. *)
Definition fresh_logger (name : pystr) : logger_obj :=
  {| level := if decide (name = root) then WARNING else 0; handlers := 0 |}.

Definition lookup_logger (name : pystr) (st : state) : logger_obj :=
  match loggers st !! canon name with
  | Some lg => lg
  | None => fresh_logger (canon name)
  end.

(** [logging.getLogger(name)]: the logger registered under [name], created
    on first use.  A logger is a shared object: the handle is its
    canonical name. *)
Definition getLogger (name : pystr) : M pystr :=
  fun st =>
    (Ret (canon name),
     set_loggers (<[canon name := lookup_logger name st]> (loggers st)) st).

(** [logger.setLevel(level)] with a level name; an unknown name is reported
    with its [repr]. *)
Definition setLevel (w : world) (logger : pystr) (level_name : pystr) : M unit :=
  fun st =>
    match check_level level_name with
    | Some n =>
        (Ret tt,
         set_loggers
           (<[canon logger :=
                {| level := n; handlers := handlers (lookup_logger logger st) |}]>
              (loggers st)) st)
    | None =>
        (Raise (Exc ValueError (py "Unknown level: " ++ str_repr w level_name)), st)
    end.

(** [logger.handlers] is non-empty. *)
Definition has_handlers (logger : pystr) : M bool :=
  fun st => (Ret (negb (Nat.eqb (handlers (lookup_logger logger st)) 0)), st).

(** [logger.addHandler(handler)] for a fresh stream handler. *)
Definition addHandler (logger : pystr) : M unit :=
  fun st =>
    let lg := lookup_logger logger st in
    (Ret tt,
     set_loggers
       (<[canon logger := {| level := level lg; handlers := S (handlers lg) |}]>
          (loggers st)) st).

(** [s.rfind(".", 0, hi)]: the last index below [hi] that holds a dot. *)
Fixpoint rfind_dot_from (s : pystr) (idx hi : nat) (best : option nat) : option nat :=
  match s with
  | [] => best
  | c :: s' =>
      if Nat.ltb idx hi
      then rfind_dot_from s' (S idx) hi (if c =? 46 then Some idx else best)
      else best
  end.

Definition rfind_dot (s : pystr) (hi : nat) : option nat := rfind_dot_from s 0 hi None.

(** The names [Manager._fixupParents] looks up for a logger: the part of
    the name before each dot at a positive index, from the right, the next
    dot being searched strictly below the index before the last one. *)
Fixpoint prefixes_from (fuel : nat) (name : pystr) (i : option nat) : list pystr :=
  match fuel, i with
  | S fuel', Some (S i') => firstn (S i') name :: prefixes_from fuel' name (rfind_dot name i')
  | _, _ => []
  end.

Definition dotted_prefixes (name : pystr) : list pystr :=
  prefixes_from (length name) name (rfind_dot name (length name)).

Definition registered (name : pystr) (st : state) : bool :=
  match loggers st !! name with
  | Some _ => true
  | None => false
  end.

(** The ancestors of a logger, nearest first: the registered loggers among
    its dotted prefixes, then the root logger. *)
Definition parents (logger : pystr) (st : state) : list pystr :=
  if decide (canon logger = root) then []
  else
    List.filter (fun p => negb (bool_decide (p = root)) && registered p st)
      (dotted_prefixes (canon logger))
    ++ [root].

(** [logger.getEffectiveLevel()]: the first level that is not [NOTSET] on
    the way from the logger to the root. *)
Fixpoint first_level (names : list pystr) (st : state) : N :=
  match names with
  | [] => 0
  | n :: names' =>
      if level (lookup_logger n st) =? 0 then first_level names' st
      else level (lookup_logger n st)
  end.

Definition effective_level (logger : pystr) (st : state) : N :=
  first_level (canon logger :: parents logger st) st.

(** The handlers a record of the logger is passed to: its own and, as
    [propagate] is set, those of its ancestors. *)
Definition reached_handlers (logger : pystr) (st : state) : nat :=
  handlers (lookup_logger logger st)
  + list_sum (List.map (fun p => handlers (lookup_logger p st)) (parents logger st)).

(** [logger.log(lvl, msg, exc_info=exc)]: when the level is enabled, one
    record per handler reached; when no handler is reached at all, the
    handler of last resort writes a record at [WARNING] or above. *)
Definition log (logger : pystr) (lvl : N) (msg : pystr) (exc : option exn) : M unit :=
  fun st =>
    let r := {| rec_name := canon logger; rec_level := lvl;
                rec_message := msg; rec_exc := exc |} in
    if effective_level logger st <=? lvl then
      match reached_handlers logger st with
      | O => (Ret tt, if WARNING <=? lvl then emit [r] st else st)
      | S n => (Ret tt, emit (replicate (S n) r) st)
      end
    else (Ret tt, st).

Definition info (logger : pystr) (msg : pystr) : M unit := log logger INFO msg None.

Definition error (logger : pystr) (msg : pystr) : M unit := log logger ERROR msg None.

(** [logger.exception(msg)] inside a handler of [exc]. *)
Definition exception (logger : pystr) (msg : pystr) (exc : exn) : M unit :=
  log logger ERROR msg (Some exc).

End Logging.

(** ** [config/settings.py] *)

Module Settings.

(** The module attribute, bound once, when the module is imported. *)
Definition OPENAI_API_KEY (w : world) : pystr :=
  getenv_default w (py "OPENAI_API_KEY") (py "").

Definition PROJECT_NAME : pystr := py "CodeGuardian".

Definition LOG_LEVEL : pystr := py "INFO".

End Settings.

(** ** [utils/helpers.py] *)

Module Helpers.

Definition record_open (path : pystr) (st : state) : state :=
  {| stdout := stdout st; stderr := stderr st; opened := opened st ++ [path];
     sent := sent st; loggers := loggers st |}.

(** [open(file_path, "r", encoding="utf-8")]. *)
Definition open (w : world) (file_path : pystr) : M text_file :=
  fun st =>
    match files w file_path with
    | inl (k, msg) => (Raise (Exc (OSErr k) msg), record_open file_path st)
    | inr f => (Ret f, record_open file_path st)
    end.

(** [json.load(f)]. *)
Definition json_load (f : text_file) : M pyval :=
  match f with
  | Undecodable k msg => raise (Exc (DecodeErr k) msg)
  | Decodes v => ret v
  end.

Definition load_json (w : world) (file_path : pystr) : M pyval :=
  f <- open w file_path ;;
  json_load f.

Definition setup_logger (w : world) (name : pystr) (level : pystr) : M pystr :=
  logger <- Logging.getLogger name ;;
  Logging.setLevel w logger level ;;;
  has <- Logging.has_handlers logger ;;
  (if negb has then Logging.addHandler logger else ret tt) ;;;
  ret logger.

End Helpers.

(** ** [agents/ai_agent.py] *)

Module CodeGuardianAgent.

(** The [OpenAI] client object: it holds the credential. *)
Record openai_client : Type := { client_api_key : pystr }.

Record t : Type := { api_key : pystr; client : openai_client }.

(** [a or b] on optional text: [a] when it is truthy, else [b]. *)
Definition or_else (a b : option pystr) : option pystr :=
  match a with
  | Some s => if PyStr.truthy s then a else b
  | None => b
  end.

(** Truth value of optional text: neither [None] nor empty. *)
Definition truthy (a : option pystr) : bool :=
  match a with
  | Some s => PyStr.truthy s
  | None => false
  end.

Definition __init__ (w : world) (api_key : option pystr) : M t :=
  let self_api_key := or_else api_key (getenv w (py "OPENAI_API_KEY")) in
  match self_api_key with
  | Some k =>
      if negb (PyStr.truthy k) then raise (Exc ValueError (py "Missing OpenAI API key."))
      else ret {| api_key := k; client := {| client_api_key := k |} |}
  | None => raise (Exc ValueError (py "Missing OpenAI API key."))
  end.

Definition record_sent (req : request) (st : state) : state :=
  {| stdout := stdout st; stderr := stderr st; opened := opened st;
     sent := sent st ++ [req]; loggers := loggers st |}.

(** One call of [client.chat.completions.create] with keyword arguments
    [req]; the call is recorded, and it ends as the world has it. *)
Definition create (w : world) (c : openai_client) (req : request) : M response :=
  fun st =>
    match remote w (client_api_key c) req with
    | CreateRaises cls msg => (Raise (Exc cls msg), record_sent req st)
    | CreateReturns r => (Ret r, record_sent req st)
    end.

(** [l[0]] on a list. *)
Definition first {A} (l : list A) : M A :=
  match l with
  | x :: _ => ret x
  | [] => raise (Exc IndexError (py "list index out of range"))
  end.

(** [content.strip()] where [content] is a [str] or [None]. *)
Definition strip_content (content : option pystr) : M pystr :=
  match content with
  | Some s => ret (PyStr.strip s)
  | None => raise (no_attribute PyNone "strip")
  end.

Definition default_model : pystr := py "gpt-4".

Definition default_temperature : Q := Qmake 1 2.

Definition ask (w : world) (self : t) (prompt : pystr)
    (model : pystr) (temperature : Q) : M pystr :=
  try_except
    (response <- create w (client self)
                   {| req_model := model;
                      req_messages := [ {| role := py "user"; content := prompt |} ];
                      req_temperature := temperature |} ;;
     c <- first (choices response) ;;
     strip_content (msg_content (choice_message c)))
    is_OpenAIError
    (fun e => raise (Exc RuntimeError (py "OpenAI API error: " ++ exn_str e))).

End CodeGuardianAgent.

(** ** [main.py] *)

Module Main.

(** [data.get("question", "")]: the method exists on a [dict] only. *)
Definition get_question (data : pyval) : M pyval :=
  match data with
  | PyDict d =>
      match d !! py "question" with
      | Some v => ret v
      | None => ret (PyStr (py ""))
      end
  | _ => raise (no_attribute data "get")
  end.

(** [v.strip()]: the method exists on a [str] only. *)
Definition strip_method (v : pyval) : M pystr :=
  match v with
  | PyStr s => ret (PyStr.strip s)
  | _ => raise (no_attribute v "strip")
  end.

(** The text of the first [print]: the header between two line breaks. *)
Definition header : pystr := newline ++ py "=== AI Response ===" ++ newline.

Definition run (w : world) (input_path : pystr) : M unit :=
  logger <- Helpers.setup_logger w Settings.PROJECT_NAME Settings.LOG_LEVEL ;;
  try_except
    (data <- Helpers.load_json w input_path ;;
     v <- get_question data ;;
     question <- strip_method v ;;
     (if negb (PyStr.truthy question) then
        Logging.error logger (py "No question provided in input file.") ;;;
        sys_exit 1
      else ret tt) ;;;
     agent <- CodeGuardianAgent.__init__ w (Some (Settings.OPENAI_API_KEY w)) ;;
     Logging.info logger (py "Sending question to AI agent: " ++ question) ;;;
     answer <- CodeGuardianAgent.ask w agent question
                 CodeGuardianAgent.default_model CodeGuardianAgent.default_temperature ;;
     print w header ;;;
     print w answer)
    is_Exception
    (fun exc =>
       Logging.exception logger (py "Execution failed:") exc ;;;
       sys_exit 1).

Definition usage : pystr := py "Usage: python main.py <path_to_input.json>".

(** The [if __name__ == "__main__":] block, on [sys.argv]. *)
Definition main (w : world) (argv : list pystr) : M unit :=
  (if negb (Nat.eqb (length argv) 2) then
     print w usage ;;;
     sys_exit 1
   else ret tt) ;;;
  match argv with
  | _ :: input_path :: _ => run w input_path
  | _ => raise (Exc IndexError (py "list index out of range"))
  end.

End Main.

(** ** Reading the specification *)

(** The exceptions the spec calls ParseError: what [open] and [json.load]
    raise in the input loader. *)
Definition is_ParseError (e : exn) : bool :=
  match e with
  | Exc (OSErr _) _ | Exc (DecodeErr _) _ => true
  | _ => false
  end.

(** Loading [path] fails with [e]: [open] raises it, or the file opens and
    [json.load] raises it. *)
Definition load_fails (w : world) (path : pystr) (e : exn) : Prop :=
  (exists k msg, files w path = inl (k, msg) /\ e = Exc (OSErr k) msg)
  \/ (exists k msg, files w path = inr (Undecodable k msg) /\ e = Exc (DecodeErr k) msg).

(** The observable behaviour of a run: exit status, standard output, the
    requests sent (each holds its prompt) and the log. *)
Definition behaviour (out : result unit * state)
  : Z * pystr * list request * list log_record :=
  (exit_status (fst out), stdout (snd out), sent (snd out), stderr (snd out)).

(** ** Concrete worlds *)

Module Examples.

Definition hello : response :=
  {| resp_id := py "chatcmpl-1"; resp_model := py "gpt-4";
     choices := [ {| index := 0; finish_reason := py "stop";
                     choice_message := {| msg_role := py "assistant";
                                          msg_content := Some (py "Hello, world.") |} |} ] |}.

Definition no_choices : response :=
  {| resp_id := py "chatcmpl-2"; resp_model := py "gpt-4"; choices := [] |}.

(** Two choices; the text of the first has white space around it. *)
Definition padded : response :=
  {| resp_id := py "chatcmpl-4"; resp_model := py "gpt-4";
     choices := [ {| index := 0; finish_reason := py "stop";
                     choice_message :=
                       {| msg_role := py "assistant";
                          msg_content := Some (py "  Hello, world. " ++ [9; 10]) |} |};
                  {| index := 1; finish_reason := py "stop";
                     choice_message :=
                       {| msg_role := py "assistant";
                          msg_content := Some (py "Good day.") |} |} ] |}.

(** One choice whose text is a lone surrogate, U+D800. *)
Definition surrogate : response :=
  {| resp_id := py "chatcmpl-5"; resp_model := py "gpt-4";
     choices := [ {| index := 0; finish_reason := py "stop";
                     choice_message := {| msg_role := py "assistant";
                                          msg_content := Some [55296] |} |} ] |}.

(** A small file system: four JSON documents, one truncated document, and
    nothing else. *)
Definition some_files (path : pystr) : (os_error * pystr) + text_file :=
  if decide (path = py "ask.json") then
    inr (Decodes (PyDict {[ py "question" := PyStr (py "  What is Rocq? ") ]}))
  else if decide (path = py "ask2.json") then
    inr (Decodes (PyDict (<[ py "model" := PyStr (py "gpt-3.5") ]>
                            {[ py "question" := PyStr (py "  What is Rocq? ") ]})))
  else if decide (path = py "blank.json") then
    inr (Decodes (PyDict {[ py "question" := PyStr (py "   ") ]}))
  else if decide (path = py "number.json") then
    inr (Decodes (PyDict {[ py "question" := PyInt 42 ]}))
  else if decide (path = py "list.json") then
    inr (Decodes (PyList [PyStr (py "question")]))
  else if decide (path = py "truncated.json") then
    inr (Undecodable JSONDecodeError
           (py "Expecting property name enclosed in double quotes: line 1 column 2 (char 1)"))
  else inl (FileNotFoundError, py "[Errno 2] No such file or directory").

Definition with_key : gmap pystr pystr := {[ py "OPENAI_API_KEY" := py "sk-test" ]}.

(** Standard output encoded as UTF-8 with strict error handling: lone
    surrogates are the code points it cannot encode. *)
Definition utf8_strict (s : pystr) : option pystr :=
  if decide (s = [55296]) then
    Some (py "'utf-8' codec can't encode character '\ud800' in position 0: surrogates not allowed")
  else if existsb (fun c => (55296 <=? c) && (c <=? 57343)) s then
    Some (py "'utf-8' codec can't encode characters: surrogates not allowed")
  else None.

(** [repr] of a text made of letters and digits: the text between single
    quotes. *)
Definition repr_plain (s : pystr) : pystr := py "'" ++ s ++ py "'".

(** The credential is set and the endpoint answers. *)
Definition answering : world :=
  {| import_environ := with_key; environ := with_key; files := some_files;
     remote := fun _ _ => CreateReturns hello;
     stdout_rejects := utf8_strict; str_repr := repr_plain |}.

(** The endpoint answers with two choices, the first one padded. *)
Definition answering_padded : world :=
  {| import_environ := with_key; environ := with_key; files := some_files;
     remote := fun _ _ => CreateReturns padded;
     stdout_rejects := utf8_strict; str_repr := repr_plain |}.

(** The endpoint answers with text standard output cannot encode. *)
Definition unprintable : world :=
  {| import_environ := with_key; environ := with_key; files := some_files;
     remote := fun _ _ => CreateReturns surrogate;
     stdout_rejects := utf8_strict; str_repr := repr_plain |}.

(** No credential in the environment. *)
Definition no_credential : world :=
  {| import_environ := ∅; environ := ∅; files := some_files;
     remote := fun _ _ => CreateReturns hello;
     stdout_rejects := utf8_strict; str_repr := repr_plain |}.

(** The endpoint returns a completion without choices. *)
Definition choiceless : world :=
  {| import_environ := with_key; environ := with_key; files := some_files;
     remote := fun _ _ => CreateReturns no_choices;
     stdout_rejects := utf8_strict; str_repr := repr_plain |}.

(** The call ends in a rate-limit error. *)
Definition rate_limited : world :=
  {| import_environ := with_key; environ := with_key; files := some_files;
     remote := fun _ _ => CreateRaises (OpenAIErr RateLimitError) (py "Rate limit reached");
     stdout_rejects := utf8_strict; str_repr := repr_plain |}.

Definition test_agent : CodeGuardianAgent.t :=
  {| CodeGuardianAgent.api_key := py "sk-test";
     CodeGuardianAgent.client := {| CodeGuardianAgent.client_api_key := py "sk-test" |} |}.

End Examples.

(** * Properties *)

(** ** Trimming *)

Module PyStrFacts.
Import PyStr.

Lemma lstrip_blank (s : pystr) : blank s = true -> lstrip s = [].
Proof.
  induction s as [|c s IH]; simpl; [reflexivity|].
  intros H. apply andb_true_iff in H as [Hc Hs]. rewrite Hc. auto.
Qed.

Lemma lstrip_nil_blank (s : pystr) : lstrip s = [] -> blank s = true.
Proof.
  induction s as [|c s IH]; simpl; [reflexivity|].
  destruct (isspace c); [auto | discriminate].
Qed.

(** [lstrip] removes a blank prefix and nothing else. *)
Lemma lstrip_split (s : pystr) :
  exists pre, s = pre ++ lstrip s /\ blank pre = true.
Proof.
  induction s as [|c s [pre [Hs Hpre]]]; simpl.
  - exists []. split; reflexivity.
  - destruct (isspace c) eqn:Hc.
    + exists (c :: pre). simpl. rewrite Hc, Hpre. split; [congruence | reflexivity].
    + exists []. split; reflexivity.
Qed.

(** What is left of [lstrip] does not start with white space. *)
Lemma lstrip_head (s : pystr) (c : N) (r : pystr) :
  lstrip s = c :: r -> isspace c = false.
Proof.
  induction s as [|a s IH]; simpl; [discriminate|].
  destruct (isspace a) eqn:Ha; [exact IH|].
  intros E. injection E as -> _. exact Ha.
Qed.

Lemma blank_app (a b : pystr) : blank (a ++ b) = blank a && blank b.
Proof. unfold blank. apply forallb_app. Qed.

Lemma blank_rev (s : pystr) : blank (rev s) = blank s.
Proof.
  induction s as [|c s IH]; simpl; [reflexivity|].
  rewrite blank_app, IH. simpl. rewrite andb_true_r. apply andb_comm.
Qed.

(** [lstrip] never removes a last character that is not white space. *)
Lemma lstrip_snoc (x : pystr) (a : N) :
  isspace a = false -> exists y, lstrip (x ++ [a]) = y ++ [a].
Proof.
  intros Ha. induction x as [|c x [y Hy]]; simpl.
  - rewrite Ha. exists []. reflexivity.
  - destruct (isspace c); [exists y; exact Hy | exists (c :: x); reflexivity].
Qed.

(** The trimmed text is empty exactly for blank text. *)
Lemma strip_nil_iff (s : pystr) : strip s = [] <-> blank s = true.
Proof.
  unfold strip, rstrip. split.
  - intros H.
    assert (Hl : lstrip (rev (lstrip s)) = []).
    { apply (f_equal (@rev N)) in H. rewrite rev_involutive in H. exact H. }
    apply lstrip_nil_blank in Hl. rewrite blank_rev in Hl.
    destruct (lstrip s) as [|c r] eqn:E; [apply lstrip_nil_blank; exact E|].
    apply lstrip_head in E. simpl in Hl. rewrite E in Hl. discriminate.
  - intros H. rewrite (lstrip_blank s H). reflexivity.
Qed.

(** The trimmed text is the input without a blank prefix and a blank
    suffix, and it neither starts nor ends with white space. *)
Lemma strip_split (s : pystr) :
  exists pre post,
    s = pre ++ strip s ++ post /\ blank pre = true /\ blank post = true.
Proof.
  unfold strip, rstrip.
  destruct (lstrip_split s) as [pre [Hs Hpre]].
  destruct (lstrip_split (rev (lstrip s))) as [q [Hq Hqb]].
  exists pre, (rev q). repeat split.
  - rewrite Hs at 1. f_equal.
    rewrite <- rev_app_distr, <- Hq, rev_involutive. reflexivity.
  - exact Hpre.
  - rewrite blank_rev. exact Hqb.
Qed.

Lemma strip_first (s : pystr) (c : N) (r : pystr) :
  strip s = c :: r -> isspace c = false.
Proof.
  unfold strip, rstrip. intros H.
  destruct (lstrip s) as [|a l] eqn:E; [discriminate H|].
  pose proof (lstrip_head _ _ _ E) as Ha.
  simpl in H. destruct (lstrip_snoc (rev l) a Ha) as [y Hy].
  rewrite Hy, rev_app_distr in H. simpl in H. injection H as <- _. exact Ha.
Qed.

Lemma strip_last (s : pystr) (c : N) (r : pystr) :
  strip s = r ++ [c] -> isspace c = false.
Proof.
  unfold strip, rstrip. intros H.
  apply (f_equal (@rev N)) in H. rewrite rev_involutive, rev_app_distr in H.
  simpl in H. exact (lstrip_head _ _ _ H).
Qed.

Lemma lstrip_blank_app (pre x : pystr) : blank pre = true -> lstrip (pre ++ x) = lstrip x.
Proof.
  induction pre as [|c pre IH]; simpl; [reflexivity|].
  intros H. apply andb_true_iff in H as [Hc Hp]. rewrite Hc. auto.
Qed.

Lemma rstrip_app_blank (x post : pystr) : blank post = true -> rstrip (x ++ post) = rstrip x.
Proof.
  intros H. unfold rstrip. rewrite rev_app_distr, lstrip_blank_app; [reflexivity|].
  rewrite blank_rev. exact H.
Qed.

(** Trimming finds the one core of a text: whatever stands between a blank
    prefix and a blank suffix and has no white space at its ends. *)
Lemma strip_unique (pre core post : pystr) :
  blank pre = true -> blank post = true ->
  (forall a l, core = a :: l -> isspace a = false) ->
  (forall a l, core = l ++ [a] -> isspace a = false) ->
  strip (pre ++ core ++ post) = core.
Proof.
  intros Hpre Hpost Hfirst Hlast. unfold strip.
  rewrite lstrip_blank_app by exact Hpre.
  destruct core as [|a l].
  - cbn [app]. rewrite (lstrip_blank post Hpost). reflexivity.
  - assert (Hl : lstrip ((a :: l) ++ post) = (a :: l) ++ post).
    { cbn [app lstrip]. rewrite (Hfirst a l eq_refl). reflexivity. }
    rewrite Hl, rstrip_app_blank by exact Hpost.
    unfold rstrip.
    destruct (exists_last (l := a :: l)) as [l' [b E]]; [discriminate|].
    rewrite E, rev_app_distr. cbn [rev app lstrip].
    rewrite (Hlast b l' E). cbn [rev]. rewrite rev_involutive. reflexivity.
Qed.

(** The ASCII white space characters are white space. *)
Lemma ascii_blank_blank (s : pystr) : ascii_blank s = true -> blank s = true.
Proof.
  induction s as [|c s IH]; [reflexivity|]. cbn [ascii_blank blank forallb].
  intros H. apply andb_true_iff in H as [Hc Hs].
  apply andb_true_iff. split; [|exact (IH Hs)].
  unfold isspace. apply orb_true_iff in Hc as [Hc | Hc].
  - apply N.eqb_eq in Hc. subst c. reflexivity.
  - rewrite Hc. reflexivity.
Qed.

End PyStrFacts.

(** ** Logging *)

Module LoggingFacts.
Import Logging.

(** The state [setup_logger] leaves: the project's logger at level [INFO]
    with a handler attached, one more than before only when it had none. *)
Definition ready (st : state) : state :=
  let n := handlers (lookup_logger Settings.PROJECT_NAME st) in
  set_loggers
    (<[Settings.PROJECT_NAME :=
         {| level := INFO; handlers := if Nat.eqb n 0 then 1%nat else n |}]> (loggers st))
    st.

Lemma canon_idem (name : pystr) : canon (canon name) = canon name.
Proof. destruct name; reflexivity. Qed.

Lemma lookup_logger_canon (name : pystr) (st : state) :
  lookup_logger (canon name) st = lookup_logger name st.
Proof. unfold lookup_logger. rewrite canon_idem. reflexivity. Qed.

Lemma lookup_logger_insert (name : pystr) (lg : logger_obj) (ls : gmap pystr logger_obj)
    (st : state) :
  lookup_logger name (set_loggers (<[canon name := lg]> ls) st) = lg.
Proof. unfold lookup_logger, set_loggers. simpl. rewrite lookup_insert_eq. reflexivity. Qed.

Lemma lookup_logger_insert_ne (name other : pystr) (lg : logger_obj) (st : state) :
  canon other <> canon name ->
  lookup_logger other (set_loggers (<[canon name := lg]> (loggers st)) st)
  = lookup_logger other st.
Proof.
  intros H. unfold lookup_logger, set_loggers. cbn [loggers].
  rewrite lookup_insert_ne by congruence. reflexivity.
Qed.

(** The logging functions read the state through its loggers only. *)
Lemma lookup_logger_loggers (name : pystr) (st1 st2 : state) :
  loggers st1 = loggers st2 -> lookup_logger name st1 = lookup_logger name st2.
Proof. intros H. unfold lookup_logger. rewrite H. reflexivity. Qed.

Lemma parents_loggers (logger : pystr) (st1 st2 : state) :
  loggers st1 = loggers st2 -> parents logger st1 = parents logger st2.
Proof. intros H. unfold parents, registered. rewrite H. reflexivity. Qed.

Lemma first_level_loggers (names : list pystr) (st1 st2 : state) :
  loggers st1 = loggers st2 -> first_level names st1 = first_level names st2.
Proof.
  intros H. induction names as [|n names IH]; cbn [first_level]; [reflexivity|].
  rewrite (lookup_logger_loggers n st1 st2 H), IH. reflexivity.
Qed.

Lemma effective_level_loggers (logger : pystr) (st1 st2 : state) :
  loggers st1 = loggers st2 -> effective_level logger st1 = effective_level logger st2.
Proof.
  intros H. unfold effective_level.
  rewrite (parents_loggers logger st1 st2 H). apply first_level_loggers, H.
Qed.

Lemma reached_handlers_loggers (logger : pystr) (st1 st2 : state) :
  loggers st1 = loggers st2 -> reached_handlers logger st1 = reached_handlers logger st2.
Proof.
  intros H. unfold reached_handlers.
  rewrite (parents_loggers logger st1 st2 H), (lookup_logger_loggers logger st1 st2 H).
  f_equal. f_equal. apply map_ext. intros p. rewrite (lookup_logger_loggers p st1 st2 H).
  reflexivity.
Qed.

Lemma project_canon : canon Settings.PROJECT_NAME = Settings.PROJECT_NAME.
Proof. reflexivity. Qed.

(** The project's logger is a child of the root logger. *)
Lemma project_parents (st : state) : parents Settings.PROJECT_NAME st = [root].
Proof. reflexivity. Qed.

Lemma project_not_root : canon root <> canon Settings.PROJECT_NAME.
Proof. vm_compute. discriminate. Qed.

Lemma setup_logger_ready (w : world) (st : state) :
  Helpers.setup_logger w Settings.PROJECT_NAME Settings.LOG_LEVEL st
  = (Ret Settings.PROJECT_NAME, ready st).
Proof.
  unfold Helpers.setup_logger, bind, getLogger, setLevel, has_handlers, addHandler, ret.
  change (check_level Settings.LOG_LEVEL) with (Some INFO).
  change (canon Settings.PROJECT_NAME) with Settings.PROJECT_NAME.
  cbv beta iota.
  rewrite !(lookup_logger_insert Settings.PROJECT_NAME). cbn [handlers].
  set (n := handlers (lookup_logger Settings.PROJECT_NAME st)).
  unfold ready. fold n.
  destruct n as [|n]; cbn [Nat.eqb negb]; cbv beta iota.
  - rewrite (lookup_logger_insert Settings.PROJECT_NAME). cbn [handlers level].
    unfold set_loggers. cbn [loggers stdout stderr opened sent].
    rewrite !insert_insert_eq. reflexivity.
  - unfold set_loggers. cbn [loggers stdout stderr opened sent].
    rewrite !insert_insert_eq. reflexivity.
Qed.

Lemma ready_project (st : state) :
  lookup_logger Settings.PROJECT_NAME (ready st)
  = {| level := INFO;
       handlers := if Nat.eqb (handlers (lookup_logger Settings.PROJECT_NAME st)) 0
                   then 1%nat else handlers (lookup_logger Settings.PROJECT_NAME st) |}.
Proof. unfold ready. apply (lookup_logger_insert Settings.PROJECT_NAME). Qed.

Lemma ready_root (st : state) : lookup_logger root (ready st) = lookup_logger root st.
Proof.
  unfold ready. apply (lookup_logger_insert_ne Settings.PROJECT_NAME root).
  exact project_not_root.
Qed.

(** The handlers a record of the project's logger reaches: its own and the
    root logger's. *)
Lemma project_reached (st : state) :
  reached_handlers Settings.PROJECT_NAME st
  = (handlers (lookup_logger Settings.PROJECT_NAME st)
     + handlers (lookup_logger root st))%nat.
Proof.
  unfold reached_handlers. rewrite project_parents. cbn [List.map].
  unfold list_sum. cbn [fold_right]. lia.
Qed.

(** A call at level [INFO] or above on the project's logger, set at [INFO]
    and reaching [S n] handlers, writes its record [S n] times. *)
Lemma log_at_info (lvl : N) (msg : pystr) (exc : option exn) (st : state) (n : nat) :
  level (lookup_logger Settings.PROJECT_NAME st) = INFO ->
  reached_handlers Settings.PROJECT_NAME st = S n ->
  (INFO <= lvl)%N ->
  log Settings.PROJECT_NAME lvl msg exc st
  = (Ret tt,
     emit (replicate (S n) {| rec_name := Settings.PROJECT_NAME; rec_level := lvl;
                              rec_message := msg; rec_exc := exc |}) st).
Proof.
  intros Hl Hr Hle. unfold log.
  assert (He : effective_level Settings.PROJECT_NAME st = INFO).
  { unfold effective_level. rewrite project_parents, project_canon.
    cbn [first_level]. rewrite Hl. reflexivity. }
  rewrite He, Hr. apply N.leb_le in Hle. rewrite Hle. reflexivity.
Qed.

End LoggingFacts.

(** ** The orchestrator, step by step *)

Module RunFacts.
Import Logging LoggingFacts.

(** The [try] block and the [except Exception] handler of [run], for the
    logger [setup_logger] returned. *)
Definition run_try (w : world) (input_path logger : pystr) : M unit :=
  data <- Helpers.load_json w input_path ;;
  v <- Main.get_question data ;;
  question <- Main.strip_method v ;;
  (if negb (PyStr.truthy question) then
     Logging.error logger (py "No question provided in input file.") ;;;
     sys_exit 1
   else ret tt) ;;;
  agent <- CodeGuardianAgent.__init__ w (Some (Settings.OPENAI_API_KEY w)) ;;
  Logging.info logger (py "Sending question to AI agent: " ++ question) ;;;
  answer <- CodeGuardianAgent.ask w agent question
              CodeGuardianAgent.default_model CodeGuardianAgent.default_temperature ;;
  print w Main.header ;;;
  print w answer.

Definition run_except (logger : pystr) (exc : exn) : M unit :=
  Logging.exception logger (py "Execution failed:") exc ;;;
  sys_exit 1.

Lemma run_unfold (w : world) (input_path : pystr) (st : state) :
  Main.run w input_path st
  = try_except (run_try w input_path Settings.PROJECT_NAME) is_Exception
      (run_except Settings.PROJECT_NAME) (ready st).
Proof.
  unfold Main.run. unfold bind at 1. rewrite setup_logger_ready. reflexivity.
Qed.

(** The record [logger.exception] writes for [exc]. *)
Definition failure_record (exc : exn) : log_record :=
  {| rec_name := Settings.PROJECT_NAME; rec_level := ERROR;
     rec_message := py "Execution failed:"; rec_exc := Some exc |}.

(** The record [logger.error] writes for an empty question. *)
Definition no_question_record : log_record :=
  {| rec_name := Settings.PROJECT_NAME; rec_level := ERROR;
     rec_message := py "No question provided in input file."; rec_exc := None |}.

(** The project's logger is at level [INFO] and its records reach [S n]
    handlers. *)
Definition logger_ready (n : nat) (st : state) : Prop :=
  level (lookup_logger Settings.PROJECT_NAME st) = INFO
  /\ reached_handlers Settings.PROJECT_NAME st = S n.

Lemma logger_ready_emit n rs st : logger_ready n st -> logger_ready n (emit rs st).
Proof. exact (fun H => H). Qed.

Lemma logger_ready_open n p st :
  logger_ready n st -> logger_ready n (Helpers.record_open p st).
Proof. exact (fun H => H). Qed.

Lemma logger_ready_sent n r st :
  logger_ready n st -> logger_ready n (CodeGuardianAgent.record_sent r st).
Proof. exact (fun H => H). Qed.

Lemma run_except_ready (exc : exn) (n : nat) (st : state) :
  logger_ready n st ->
  run_except Settings.PROJECT_NAME exc st
  = (Raise (SystemExit 1), emit (replicate (S n) (failure_record exc)) st).
Proof.
  intros [Hl Hr]. unfold run_except, bind, Logging.exception.
  rewrite (log_at_info _ _ _ _ _ Hl Hr) by (vm_compute; discriminate).
  reflexivity.
Qed.

(** An exception below [Exception] raised in the [try] block ends the run
    in the handler: it is logged and the run exits with status 1. *)
Lemma run_caught (w : world) (path : pystr) (st st2 : state) (cls : exc_class)
    (msg : pystr) :
  run_try w path Settings.PROJECT_NAME (ready st) = (Raise (Exc cls msg), st2) ->
  (exists n, logger_ready n st2) ->
  exists n,
    Main.run w path st
    = (Raise (SystemExit 1), emit (replicate (S n) (failure_record (Exc cls msg))) st2).
Proof.
  intros Htry [n Hn]. exists n. rewrite run_unfold. unfold try_except. rewrite Htry.
  cbn [is_Exception]. apply run_except_ready. exact Hn.
Qed.

(** *** Sequencing *)

Lemma bind_Ret {A B} (m : M A) (k : A -> M B) (st st' : state) (a : A) :
  m st = (Ret a, st') -> bind m k st = k a st'.
Proof. intros H. unfold bind. rewrite H. reflexivity. Qed.

Lemma bind_Raise {A B} (m : M A) (k : A -> M B) (st st' : state) (e : exn) :
  m st = (Raise e, st') -> bind m k st = (Raise e, st').
Proof. intros H. unfold bind. rewrite H. reflexivity. Qed.

(** *** Printing *)

Lemma print_encodes (w : world) (s : pystr) (st : state) :
  stdout_encodes w s = true ->
  print w s st = (Ret tt, write_stdout (s ++ newline) st).
Proof.
  unfold stdout_encodes, print. destruct (PyStr.isascii s); [reflexivity|].
  destruct (stdout_rejects w s); [discriminate | reflexivity].
Qed.

Lemma print_rejects (w : world) (s : pystr) (st : state) :
  stdout_encodes w s = false ->
  exists msg, print w s st = (Raise (Exc UnicodeEncodeError msg), st).
Proof.
  unfold stdout_encodes, print. destruct (PyStr.isascii s); [discriminate|].
  destruct (stdout_rejects w s) as [msg|]; [eauto | discriminate].
Qed.

(** The header is ASCII: printing it cannot fail. *)
Lemma print_header (w : world) (st : state) :
  print w Main.header st = (Ret tt, write_stdout (Main.header ++ newline) st).
Proof. reflexivity. Qed.

(** *** The input loader *)

Lemma load_json_open_fails w path st k msg :
  files w path = inl (k, msg) ->
  Helpers.load_json w path st = (Raise (Exc (OSErr k) msg), Helpers.record_open path st).
Proof.
  intros H. unfold Helpers.load_json. apply bind_Raise.
  unfold Helpers.open. rewrite H. reflexivity.
Qed.

Lemma load_json_decode_fails w path st k msg :
  files w path = inr (Undecodable k msg) ->
  Helpers.load_json w path st = (Raise (Exc (DecodeErr k) msg), Helpers.record_open path st).
Proof.
  intros H. unfold Helpers.load_json.
  rewrite (bind_Ret _ _ st (Helpers.record_open path st) (Undecodable k msg)).
  - reflexivity.
  - unfold Helpers.open. rewrite H. reflexivity.
Qed.

Lemma load_json_decodes w path st v :
  files w path = inr (Decodes v) ->
  Helpers.load_json w path st = (Ret v, Helpers.record_open path st).
Proof.
  intros H. unfold Helpers.load_json.
  rewrite (bind_Ret _ _ st (Helpers.record_open path st) (Decodes v)).
  - reflexivity.
  - unfold Helpers.open. rewrite H. reflexivity.
Qed.

(** *** The [try] block *)

Lemma run_try_open_fails w path lg st k msg :
  files w path = inl (k, msg) ->
  run_try w path lg st = (Raise (Exc (OSErr k) msg), Helpers.record_open path st).
Proof. intros H. apply bind_Raise, load_json_open_fails, H. Qed.

Lemma run_try_decode_fails w path lg st k msg :
  files w path = inr (Undecodable k msg) ->
  run_try w path lg st = (Raise (Exc (DecodeErr k) msg), Helpers.record_open path st).
Proof. intros H. apply bind_Raise, load_json_decode_fails, H. Qed.

(** The rest of the [try] block once the question is trimmed. *)
Definition run_rest (w : world) (logger question : pystr) : M unit :=
  (if negb (PyStr.truthy question) then
     Logging.error logger (py "No question provided in input file.") ;;;
     sys_exit 1
   else ret tt) ;;;
  agent <- CodeGuardianAgent.__init__ w (Some (Settings.OPENAI_API_KEY w)) ;;
  Logging.info logger (py "Sending question to AI agent: " ++ question) ;;;
  answer <- CodeGuardianAgent.ask w agent question
              CodeGuardianAgent.default_model CodeGuardianAgent.default_temperature ;;
  print w Main.header ;;;
  print w answer.

(** The value [data.get("question", "")] returns on a [dict]. *)
Definition question_value (d : gmap pystr pyval) : pyval :=
  match d !! py "question" with
  | Some v => v
  | None => PyStr (py "")
  end.

Definition is_dict (v : pyval) : bool :=
  match v with PyDict _ => true | _ => false end.

Definition is_str (v : pyval) : bool :=
  match v with PyStr _ => true | _ => false end.

Lemma run_try_not_dict w path lg st v :
  files w path = inr (Decodes v) ->
  is_dict v = false ->
  run_try w path lg st = (Raise (no_attribute v "get"), Helpers.record_open path st).
Proof.
  intros H Hv. unfold run_try.
  rewrite (bind_Ret _ _ _ _ _ (load_json_decodes _ _ st _ H)).
  apply bind_Raise. destruct v; try reflexivity; discriminate.
Qed.

Lemma run_try_not_str w path lg st d :
  files w path = inr (Decodes (PyDict d)) ->
  is_str (question_value d) = false ->
  run_try w path lg st
  = (Raise (no_attribute (question_value d) "strip"), Helpers.record_open path st).
Proof.
  intros H Hv. unfold run_try.
  rewrite (bind_Ret _ _ _ _ _ (load_json_decodes _ _ st _ H)).
  rewrite (bind_Ret _ _ _ (Helpers.record_open path st) (question_value d)).
  - apply bind_Raise. destruct (question_value d); try reflexivity; discriminate.
  - unfold Main.get_question, question_value.
    destruct (d !! py "question"); reflexivity.
Qed.

Lemma run_try_str w path lg st d s :
  files w path = inr (Decodes (PyDict d)) ->
  question_value d = PyStr s ->
  run_try w path lg st = run_rest w lg (PyStr.strip s) (Helpers.record_open path st).
Proof.
  intros H Hv. unfold run_try.
  rewrite (bind_Ret _ _ _ _ _ (load_json_decodes _ _ st _ H)).
  rewrite (bind_Ret _ _ _ (Helpers.record_open path st) (question_value d)).
  - rewrite Hv.
    rewrite (bind_Ret _ _ _ (Helpers.record_open path st) (PyStr.strip s)); reflexivity.
  - unfold Main.get_question, question_value.
    destruct (d !! py "question"); reflexivity.
Qed.

Lemma run_rest_empty w n st :
  logger_ready n st ->
  run_rest w Settings.PROJECT_NAME [] st
  = (Raise (SystemExit 1), emit (replicate (S n) no_question_record) st).
Proof.
  intros H. unfold run_rest. cbn [PyStr.truthy negb].
  apply bind_Raise.
  rewrite (bind_Ret _ _ st (emit (replicate (S n) no_question_record) st) tt).
  - reflexivity.
  - unfold Logging.error. destruct H as [Hl Hr].
    apply log_at_info; [exact Hl | exact Hr | vm_compute; discriminate].
Qed.

Definition missing_key : exn := Exc ValueError (py "Missing OpenAI API key.").

(** The credential [run] constructs the agent with: the settings value
    when it is not empty, else the environment's at construction, if that
    is not empty. *)
Definition credential (w : world) : option pystr :=
  match CodeGuardianAgent.or_else (Some (Settings.OPENAI_API_KEY w))
          (getenv w (py "OPENAI_API_KEY")) with
  | Some k => if PyStr.truthy k then Some k else None
  | None => None
  end.

Definition agent_with (k : pystr) : CodeGuardianAgent.t :=
  {| CodeGuardianAgent.api_key := k;
     CodeGuardianAgent.client := {| CodeGuardianAgent.client_api_key := k |} |}.

Lemma init_credential w st :
  CodeGuardianAgent.__init__ w (Some (Settings.OPENAI_API_KEY w)) st
  = match credential w with
    | Some k => (Ret (agent_with k), st)
    | None => (Raise missing_key, st)
    end.
Proof.
  unfold CodeGuardianAgent.__init__, credential.
  destruct (CodeGuardianAgent.or_else _ _) as [k|]; [|reflexivity].
  destruct (PyStr.truthy k); reflexivity.
Qed.

Lemma credential_settings w :
  Settings.OPENAI_API_KEY w <> [] -> credential w = Some (Settings.OPENAI_API_KEY w).
Proof.
  intros H. unfold credential, CodeGuardianAgent.or_else.
  destruct (Settings.OPENAI_API_KEY w) as [|c k]; [congruence | reflexivity].
Qed.

Lemma run_rest_no_key w lg q st :
  q <> [] ->
  credential w = None ->
  run_rest w lg q st = (Raise missing_key, st).
Proof.
  intros Hq Hk. unfold run_rest. destruct q as [|c q]; [congruence|].
  cbn [PyStr.truthy negb].
  rewrite (bind_Ret _ _ st st tt) by reflexivity.
  apply bind_Raise. rewrite init_credential, Hk. reflexivity.
Qed.

(** The record [logger.info] writes before the question is sent. *)
Definition sending_record (question : pystr) : log_record :=
  {| rec_name := Settings.PROJECT_NAME; rec_level := INFO;
     rec_message := py "Sending question to AI agent: " ++ question; rec_exc := None |}.

(** The agent [run] constructs. *)
Definition settings_agent (w : world) : CodeGuardianAgent.t :=
  {| CodeGuardianAgent.api_key := Settings.OPENAI_API_KEY w;
     CodeGuardianAgent.client :=
       {| CodeGuardianAgent.client_api_key := Settings.OPENAI_API_KEY w |} |}.

Lemma run_rest_asks_with w q k n st :
  q <> [] ->
  credential w = Some k ->
  logger_ready n st ->
  run_rest w Settings.PROJECT_NAME q st
  = (answer <- CodeGuardianAgent.ask w (agent_with k) q
                 CodeGuardianAgent.default_model CodeGuardianAgent.default_temperature ;;
     print w Main.header ;;;
     print w answer) (emit (replicate (S n) (sending_record q)) st).
Proof.
  intros Hq Hk H. unfold run_rest. destruct q as [|c q]; [congruence|].
  cbn [PyStr.truthy negb].
  rewrite (bind_Ret _ _ st st tt) by reflexivity.
  rewrite (bind_Ret _ _ st st (agent_with k)) by (rewrite init_credential, Hk; reflexivity).
  rewrite (bind_Ret _ _ st (emit (replicate (S n) (sending_record (c :: q))) st) tt).
  - reflexivity.
  - unfold Logging.info. destruct H as [Hl Hr].
    apply log_at_info; [exact Hl | exact Hr | vm_compute; discriminate].
Qed.

Lemma run_rest_ask w q n st :
  q <> [] ->
  Settings.OPENAI_API_KEY w <> [] ->
  logger_ready n st ->
  run_rest w Settings.PROJECT_NAME q st
  = (answer <- CodeGuardianAgent.ask w (settings_agent w) q
                 CodeGuardianAgent.default_model CodeGuardianAgent.default_temperature ;;
     print w Main.header ;;;
     print w answer) (emit (replicate (S n) (sending_record q)) st).
Proof.
  intros Hq Hk H.
  exact (run_rest_asks_with w q _ n st Hq (credential_settings w Hk) H).
Qed.

End RunFacts.

(** ** The agent client *)

Module AgentFacts.
Import CodeGuardianAgent RunFacts.

(** The request [ask] sends. *)
Definition ask_request (prompt model : pystr) (temperature : Q) : request :=
  {| req_model := model;
     req_messages := [ {| role := py "user"; content := prompt |} ];
     req_temperature := temperature |}.

Definition api_error (cause : exn) : exn :=
  Exc RuntimeError (py "OpenAI API error: " ++ exn_str cause).

Definition index_error : exn := Exc IndexError (py "list index out of range").

Section Ask.
Variables (w : world) (self : t) (prompt model : pystr) (temperature : Q) (st : state).

Let req := ask_request prompt model temperature.
Let key := client_api_key (client self).

Lemma ask_openai_error k msg :
  remote w key req = CreateRaises (OpenAIErr k) msg ->
  ask w self prompt model temperature st
  = (Raise (api_error (Exc (OpenAIErr k) msg)), record_sent req st).
Proof.
  intros H. unfold ask, try_except.
  rewrite (bind_Raise _ _ st (record_sent req st) (Exc (OpenAIErr k) msg)).
  - reflexivity.
  - unfold create. fold key. fold (ask_request prompt model temperature). fold req.
    rewrite H. reflexivity.
Qed.

Lemma ask_other_error cls msg :
  remote w key req = CreateRaises cls msg ->
  is_OpenAIError (Exc cls msg) = false ->
  ask w self prompt model temperature st = (Raise (Exc cls msg), record_sent req st).
Proof.
  intros H Hc. unfold ask, try_except.
  rewrite (bind_Raise _ _ st (record_sent req st) (Exc cls msg)).
  - rewrite Hc. reflexivity.
  - unfold create. fold key. fold (ask_request prompt model temperature). fold req.
    rewrite H. reflexivity.
Qed.

Lemma create_returns r :
  remote w key req = CreateReturns r ->
  create w (client self) req st = (Ret r, record_sent req st).
Proof. intros H. unfold create. fold key. rewrite H. reflexivity. Qed.

Lemma ask_no_choices r :
  remote w key req = CreateReturns r ->
  choices r = [] ->
  ask w self prompt model temperature st = (Raise index_error, record_sent req st).
Proof.
  intros H Hc. unfold ask, try_except.
  fold (ask_request prompt model temperature). fold req.
  rewrite (bind_Ret _ _ _ _ _ (create_returns r H)).
  rewrite Hc. reflexivity.
Qed.

Lemma ask_null_content r c rest :
  remote w key req = CreateReturns r ->
  choices r = c :: rest ->
  msg_content (choice_message c) = None ->
  ask w self prompt model temperature st
  = (Raise (no_attribute PyNone "strip"), record_sent req st).
Proof.
  intros H Hc Hn. unfold ask, try_except.
  fold (ask_request prompt model temperature). fold req.
  rewrite (bind_Ret _ _ _ _ _ (create_returns r H)).
  rewrite Hc. cbn [first].
  rewrite (bind_Ret _ _ (record_sent req st) (record_sent req st) c) by reflexivity.
  rewrite Hn. reflexivity.
Qed.

Lemma ask_text r c rest text :
  remote w key req = CreateReturns r ->
  choices r = c :: rest ->
  msg_content (choice_message c) = Some text ->
  ask w self prompt model temperature st = (Ret (PyStr.strip text), record_sent req st).
Proof.
  intros H Hc Hn. unfold ask, try_except.
  fold (ask_request prompt model temperature). fold req.
  rewrite (bind_Ret _ _ _ _ _ (create_returns r H)).
  rewrite Hc. cbn [first].
  rewrite (bind_Ret _ _ (record_sent req st) (record_sent req st) c) by reflexivity.
  rewrite Hn. reflexivity.
Qed.

(** Whatever the endpoint does, [ask] ends in the state that has the one
    request appended. *)
Lemma ask_state :
  snd (ask w self prompt model temperature st) = record_sent req st.
Proof.
  destruct (remote w key req) as [cls msg | r] eqn:H.
  - destruct (is_OpenAIError (Exc cls msg)) eqn:Hc.
    + destruct cls; try discriminate Hc. rewrite (ask_openai_error _ _ H). reflexivity.
    + rewrite (ask_other_error _ _ H Hc). reflexivity.
  - destruct (choices r) as [|c rest] eqn:Hr.
    + rewrite (ask_no_choices _ H Hr). reflexivity.
    + destruct (msg_content (choice_message c)) as [text|] eqn:Hm.
      * rewrite (ask_text _ _ _ _ H Hr Hm). reflexivity.
      * rewrite (ask_null_content _ _ _ H Hr Hm). reflexivity.
Qed.

(** No [OpenAIError] leaves [ask]. *)
Lemma ask_no_openai_error_escapes e st' :
  ask w self prompt model temperature st = (Raise e, st') ->
  is_OpenAIError e = false.
Proof.
  destruct (remote w key req) as [cls msg | r] eqn:H.
  - destruct (is_OpenAIError (Exc cls msg)) eqn:Hc.
    + destruct cls; try discriminate Hc. rewrite (ask_openai_error _ _ H).
      intros E. injection E as <- _. reflexivity.
    + rewrite (ask_other_error _ _ H Hc). intros E. injection E as <- _. exact Hc.
  - destruct (choices r) as [|c rest] eqn:Hr.
    + rewrite (ask_no_choices _ H Hr). intros E. injection E as <- _. reflexivity.
    + destruct (msg_content (choice_message c)) as [text|] eqn:Hm.
      * rewrite (ask_text _ _ _ _ H Hr Hm). discriminate.
      * rewrite (ask_null_content _ _ _ H Hr Hm).
        intros E. injection E as <- _. reflexivity.
Qed.

End Ask.

End AgentFacts.

(** ** How a run ends *)

Module RunOutcomes.
Import Logging LoggingFacts RunFacts AgentFacts.

(** [sys.exit] inside the [try] block is not an [Exception]: it leaves
    [run] as it is. *)
Lemma run_exits (w : world) (path : pystr) (st st2 : state) (code : Z) :
  run_try w path Settings.PROJECT_NAME (ready st) = (Raise (SystemExit code), st2) ->
  Main.run w path st = (Raise (SystemExit code), st2).
Proof. intros H. rewrite run_unfold. unfold try_except. rewrite H. reflexivity. Qed.

(** With exactly one argument the script runs the orchestrator on it. *)
Lemma main_one_argument (w : world) (script path : pystr) (st : state) :
  Main.main w [script; path] st = Main.run w path st.
Proof.
  unfold Main.main. cbn [length Nat.eqb negb].
  rewrite (bind_Ret _ _ st st tt) by reflexivity. reflexivity.
Qed.

Lemma ready_is_ready (st : state) : exists n, logger_ready n (ready st).
Proof.
  unfold logger_ready. rewrite project_reached, ready_project, ready_root.
  cbn [level handlers].
  destruct (handlers (lookup_logger Settings.PROJECT_NAME st)) as [|h]; cbn [Nat.eqb];
    eexists; (split; [reflexivity|]); cbn [Nat.add]; reflexivity.
Qed.

Lemma ready_after_open (path : pystr) (st : state) :
  exists n, logger_ready n (Helpers.record_open path (ready st)).
Proof.
  destruct (ready_is_ready st) as [n Hn]. exists n.
  apply logger_ready_open. exact Hn.
Qed.

(** A run whose [try] block raises [Exc cls msg] right after [open]. *)
Lemma run_caught_after_open (w : world) (path : pystr) (st : state)
    (cls : exc_class) (msg : pystr) :
  run_try w path Settings.PROJECT_NAME (ready st)
  = (Raise (Exc cls msg), Helpers.record_open path (ready st)) ->
  exists n,
    Main.run w path st
    = (Raise (SystemExit 1),
       emit (replicate (S n) (failure_record (Exc cls msg)))
         (Helpers.record_open path (ready st))).
Proof. intros H. apply (run_caught _ _ _ _ _ _ H), ready_after_open. Qed.

(** Every exception [ask] raises is below [Exception]. *)
Lemma ask_raises_exception w self prompt model temperature st e st' :
  CodeGuardianAgent.ask w self prompt model temperature st = (Raise e, st') ->
  is_Exception e = true.
Proof.
  unfold CodeGuardianAgent.ask, try_except.
  destruct (bind _ _ st) as [[a|e0] s0] eqn:Hb.
  - discriminate.
  - assert (He0 : is_Exception e0 = true).
    { unfold bind in Hb. unfold CodeGuardianAgent.create in Hb.
      destruct (remote w _ _) as [cls msg|r].
      - injection Hb as <- _. reflexivity.
      - destruct (choices r) as [|c rest]; cbn in Hb.
        + injection Hb as <- _. reflexivity.
        + destruct (msg_content (choice_message c)); cbn in Hb; [discriminate|].
          injection Hb as <- _. reflexivity. }
    destruct (is_OpenAIError e0).
    + intros E. injection E as <- _. reflexivity.
    + intros E. injection E as <- _. exact He0.
Qed.

(** The state in which [ask] is called: the input has been opened and the
    question logged. *)
Definition asking_state (path question : pystr) (n : nat) (st : state) : state :=
  emit (replicate (S n) (sending_record question)) (Helpers.record_open path (ready st)).

(** With a question and a credential, the [try] block reaches [ask]. *)
Lemma run_try_asks (w : world) (path : pystr) (d : gmap pystr pyval) (s : pystr)
    (st : state) :
  files w path = inr (Decodes (PyDict d)) ->
  question_value d = PyStr s ->
  PyStr.strip s <> [] ->
  Settings.OPENAI_API_KEY w <> [] ->
  exists n,
    run_try w path Settings.PROJECT_NAME (ready st)
    = (answer <- CodeGuardianAgent.ask w (settings_agent w) (PyStr.strip s)
                   CodeGuardianAgent.default_model CodeGuardianAgent.default_temperature ;;
       print w Main.header ;;;
       print w answer) (asking_state path (PyStr.strip s) n st)
    /\ logger_ready n (asking_state path (PyStr.strip s) n st).
Proof.
  intros Hf Hv Hs Hk. destruct (ready_after_open path st) as [n Hn]. exists n.
  rewrite (run_try_str _ _ _ _ _ _ Hf Hv).
  rewrite (run_rest_ask _ _ _ _ Hs Hk Hn).
  split; [reflexivity | apply logger_ready_emit, Hn].
Qed.

(** The state after the header is printed. *)
Definition headed (st : state) : state := write_stdout (Main.header ++ newline) st.

Lemma logger_ready_write n s st : logger_ready n st -> logger_ready n (write_stdout s st).
Proof. exact (fun H => H). Qed.

(** The end of a run whose [try] block has an answer to print: it returns
    when standard output encodes the answer, and else logs the
    [UnicodeEncodeError] and exits with status 1, the header printed. *)
Lemma run_after_answer (w : world) (path : pystr) (st s2 : state) (n : nat)
    (answer : pystr) :
  run_try w path Settings.PROJECT_NAME (ready st)
  = (print w Main.header ;;; print w answer) s2 ->
  logger_ready n s2 ->
  (stdout_encodes w answer = true
   /\ Main.run w path st = (Ret tt, write_stdout (answer ++ newline) (headed s2)))
  \/ (stdout_encodes w answer = false
      /\ exists msg,
           Main.run w path st
           = (Raise (SystemExit 1),
              emit (replicate (S n) (failure_record (Exc UnicodeEncodeError msg)))
                (headed s2))).
Proof.
  intros Ht Hn.
  rewrite (bind_Ret _ _ _ _ _ (print_header w s2)) in Ht. fold (headed s2) in Ht.
  destruct (stdout_encodes w answer) eqn:He.
  - left. split; [reflexivity|].
    rewrite (print_encodes w answer _ He) in Ht.
    rewrite run_unfold. unfold try_except. rewrite Ht. reflexivity.
  - right. split; [reflexivity|].
    destruct (print_rejects w answer (headed s2) He) as [msg Hp]. exists msg.
    rewrite Hp in Ht.
    rewrite run_unfold. unfold try_except. rewrite Ht. cbn [is_Exception].
    apply run_except_ready. apply logger_ready_write, Hn.
Qed.

End RunOutcomes.

(** ** The input file reaches the run through its question only *)

Module Frame.
Import Logging.

(** What a run shows of a state: everything but the list of opened paths. *)
Definition obs (st : state) : pystr * list log_record * list request * gmap pystr logger_obj :=
  (stdout st, stderr st, sent st, loggers st).

(** A computation whose result and visible effects do not depend on the
    paths opened before it. *)
Definition respects {A} (m : M A) : Prop :=
  forall st1 st2,
    obs st1 = obs st2 ->
    fst (m st1) = fst (m st2) /\ obs (snd (m st1)) = obs (snd (m st2)).

Ltac obs_fields H :=
  unfold obs in H; injection H as ? ? ? ?.

Lemma respects_ret {A} (a : A) : respects (ret a).
Proof. intros st1 st2 H. split; [reflexivity | exact H]. Qed.

Lemma respects_raise {A} (e : exn) : respects (@raise A e).
Proof. intros st1 st2 H. split; [reflexivity | exact H]. Qed.

Lemma respects_bind {A B} (m : M A) (k : A -> M B) :
  respects m -> (forall a, respects (k a)) -> respects (bind m k).
Proof.
  intros Hm Hk st1 st2 H. unfold bind.
  destruct (Hm st1 st2 H) as [Hr Hs].
  destruct (m st1) as [r1 s1], (m st2) as [r2 s2]. cbn [fst snd] in Hr, Hs. subst r2.
  destruct r1 as [a|e]; [exact (Hk a s1 s2 Hs) | split; [reflexivity | exact Hs]].
Qed.

Lemma respects_try_except {A} (m : M A) (catches : exn -> bool) (h : exn -> M A) :
  respects m -> (forall e, respects (h e)) -> respects (try_except m catches h).
Proof.
  intros Hm Hh st1 st2 H. unfold try_except.
  destruct (Hm st1 st2 H) as [Hr Hs].
  destruct (m st1) as [r1 s1], (m st2) as [r2 s2]. cbn [fst snd] in Hr, Hs. subst r2.
  destruct r1 as [a|e]; [split; [reflexivity | exact Hs]|].
  destruct (catches e); [exact (Hh e s1 s2 Hs) | split; [reflexivity | exact Hs]].
Qed.

Lemma respects_print (w : world) (s : pystr) : respects (print w s).
Proof.
  intros st1 st2 H. obs_fields H. unfold print, write_stdout, obs.
  destruct (PyStr.isascii s); [|destruct (stdout_rejects w s)]; cbn [fst snd];
    cbn [stdout stderr sent loggers]; (split; [reflexivity | congruence]).
Qed.

Lemma respects_log logger lvl msg exc : respects (log logger lvl msg exc).
Proof.
  intros st1 st2 H. obs_fields H. unfold log.
  rewrite (LoggingFacts.effective_level_loggers logger st1 st2) by assumption.
  rewrite (LoggingFacts.reached_handlers_loggers logger st1 st2) by assumption.
  destruct (effective_level _ _ <=? lvl)%N;
    [|cbn [fst snd]; split; [reflexivity | unfold obs; congruence]].
  destruct (reached_handlers _ _); [destruct (WARNING <=? lvl)%N|];
    unfold obs, emit; cbn [fst snd stdout stderr sent loggers];
    (split; [reflexivity | congruence]).
Qed.

Lemma respects_init w api_key : respects (CodeGuardianAgent.__init__ w api_key).
Proof.
  unfold CodeGuardianAgent.__init__.
  destruct (CodeGuardianAgent.or_else _ _) as [k|]; [|apply respects_raise].
  destruct (negb (PyStr.truthy k)); [apply respects_raise | apply respects_ret].
Qed.

Lemma respects_create w c req : respects (CodeGuardianAgent.create w c req).
Proof.
  intros st1 st2 H. obs_fields H. unfold CodeGuardianAgent.create.
  destruct (remote w _ req); unfold obs; cbn; (split; [reflexivity | congruence]).
Qed.

Lemma respects_ask w self prompt model temperature :
  respects (CodeGuardianAgent.ask w self prompt model temperature).
Proof.
  unfold CodeGuardianAgent.ask. apply respects_try_except.
  - apply respects_bind; [apply respects_create|]. intros r.
    apply respects_bind.
    + destruct (choices r); [apply respects_raise | apply respects_ret].
    + intros c. destruct (msg_content (choice_message c));
        [apply respects_ret | apply respects_raise].
  - intros e. apply respects_raise.
Qed.

(** The [try] block after the input is loaded. *)
Definition run_loaded (w : world) (logger : pystr) (data : pyval) : M unit :=
  v <- Main.get_question data ;;
  question <- Main.strip_method v ;;
  RunFacts.run_rest w logger question.

Lemma run_try_loaded w path logger :
  RunFacts.run_try w path logger
  = (data <- Helpers.load_json w path ;; run_loaded w logger data).
Proof. reflexivity. Qed.

Lemma respects_run_loaded w logger data : respects (run_loaded w logger data).
Proof.
  unfold run_loaded. apply respects_bind.
  - destruct data; try apply respects_raise.
    cbn [Main.get_question]. destruct (d !! py "question"); apply respects_ret.
  - intros v. apply respects_bind.
    + destruct v; try apply respects_raise. apply respects_ret.
    + intros q. unfold RunFacts.run_rest. apply respects_bind.
      * destruct (negb (PyStr.truthy q)); [|apply respects_ret].
        apply respects_bind; [apply respects_log | intros _; apply respects_raise].
      * intros _. apply respects_bind; [apply respects_init|]. intros agent.
        apply respects_bind; [apply respects_log|]. intros _.
        apply respects_bind; [apply respects_ask|]. intros answer.
        apply respects_bind; [apply respects_print | intros _; apply respects_print].
Qed.

Lemma respects_run_except logger exc : respects (RunFacts.run_except logger exc).
Proof.
  unfold RunFacts.run_except.
  apply respects_bind; [apply respects_log | intros _; apply respects_raise].
Qed.

(** Two objects with the same ["question"] entry are the same to the
    [try] block. *)
Lemma run_loaded_question (w : world) (logger : pystr) (d1 d2 : gmap pystr pyval) :
  d1 !! py "question" = d2 !! py "question" ->
  run_loaded w logger (PyDict d1) = run_loaded w logger (PyDict d2).
Proof. intros H. unfold run_loaded, Main.get_question. rewrite H. reflexivity. Qed.

End Frame.

(** * The claims *)

(** C1: when the parsed input object has no ["question"], or one that is
    empty or only white space, [run] exits with status 1, having logged the
    error, and sends no request. *)
Theorem blank_question_exits_without_request
    (w : world) (path : pystr) (d : gmap pystr pyval) (st : state) :
  files w path = inr (Decodes (PyDict d)) ->
  (d !! py "question" = None
   \/ exists s, d !! py "question" = Some (PyStr s) /\ PyStr.blank s = true) ->
  exists st',
    Main.run w path st = (Raise (SystemExit 1), st')
    /\ exit_status (fst (Main.run w path st)) = 1%Z
    /\ sent st' = sent st
    /\ stdout st' = stdout st
    /\ exists n, stderr st' = stderr st ++ replicate (S n) RunFacts.no_question_record.
Proof.
  intros Hf Hq.
  assert (Hv : exists s, RunFacts.question_value d = PyStr s /\ PyStr.strip s = []).
  { unfold RunFacts.question_value. destruct Hq as [-> | [s [-> Hb]]].
    - exists []. split; reflexivity.
    - exists s. split; [reflexivity | apply PyStrFacts.strip_nil_iff, Hb]. }
  destruct Hv as [s [Hv Hs]].
  destruct (RunOutcomes.ready_after_open path st) as [n Hn].
  pose proof (RunFacts.run_try_str w path Settings.PROJECT_NAME (LoggingFacts.ready st)
                d s Hf Hv) as Ht.
  rewrite Hs, (RunFacts.run_rest_empty w n _ Hn) in Ht.
  apply RunOutcomes.run_exits in Ht.
  eexists. rewrite Ht. repeat split. exists n. reflexivity.
Qed.

Lemma blank_question_exits_without_request_witness :
  exists st',
    Main.run Examples.answering (py "blank.json") initial_state = (Raise (SystemExit 1), st')
    /\ exit_status (fst (Main.run Examples.answering (py "blank.json") initial_state)) = 1%Z
    /\ sent st' = sent initial_state
    /\ stdout st' = stdout initial_state
    /\ exists n, stderr st' = stderr initial_state ++ replicate (S n) RunFacts.no_question_record.
Proof.
  apply (blank_question_exits_without_request Examples.answering (py "blank.json")
           {[ py "question" := PyStr (py "   ") ]} initial_state).
  - vm_compute. reflexivity.
  - right. exists (py "   "). split; vm_compute; reflexivity.
Defined.

(** C2, as stated, fails: a valid question alone does not make [run] send a
    request.  With no credential in the environment the construction of the
    agent raises and nothing is sent. *)
Lemma valid_question_without_credential_sends_nothing :
  files Examples.no_credential (py "ask.json")
  = inr (Decodes (PyDict {[ py "question" := PyStr (py "  What is Rocq? ") ]}))
  /\ PyStr.strip (py "  What is Rocq? ") = py "What is Rocq?"
  /\ sent (snd (Main.run Examples.no_credential (py "ask.json") initial_state)) = []
  /\ fst (Main.run Examples.no_credential (py "ask.json") initial_state) = Raise (SystemExit 1).
Proof. vm_compute. repeat split. Qed.

(** C2, amended: when the parsed input object has a ["question"] string that
    is not blank and the settings hold a non-empty credential, [run] invokes
    the exchange exactly once (one call of the client's [create]), however
    that call ends; its conversation is the single user message whose
    content is the trimmed question. *)
Theorem valid_question_sends_one_request
    (w : world) (path : pystr) (d : gmap pystr pyval) (s : pystr) (st : state) :
  files w path = inr (Decodes (PyDict d)) ->
  d !! py "question" = Some (PyStr s) ->
  PyStr.strip s <> [] ->
  Settings.OPENAI_API_KEY w <> [] ->
  sent (snd (Main.run w path st))
  = sent st ++ [ {| req_model := py "gpt-4";
                    req_messages := [ {| role := py "user"; content := PyStr.strip s |} ];
                    req_temperature := Qmake 1 2 |} ].
Proof.
  intros Hf Hq Hs Hk.
  assert (Hv : RunFacts.question_value d = PyStr s)
    by (unfold RunFacts.question_value; rewrite Hq; reflexivity).
  destruct (RunOutcomes.run_try_asks w path d s st Hf Hv Hs Hk) as [n [Ht Hn]].
  pose proof (AgentFacts.ask_state w (RunFacts.settings_agent w) (PyStr.strip s)
                CodeGuardianAgent.default_model CodeGuardianAgent.default_temperature
                (RunOutcomes.asking_state path (PyStr.strip s) n st)) as Hst.
  destruct (CodeGuardianAgent.ask w (RunFacts.settings_agent w) (PyStr.strip s) _ _ _)
    as [[answer|e] s2] eqn:Hask; cbn [snd] in Hst; subst s2.
  - rewrite (RunFacts.bind_Ret _ _ _ _ _ Hask) in Ht.
    destruct (RunOutcomes.run_after_answer w path st _ n answer Ht
                (RunFacts.logger_ready_sent n _ _ Hn))
      as [[_ ->] | [_ [msg ->]]]; reflexivity.
  - rewrite (RunFacts.bind_Raise _ _ _ _ _ Hask) in Ht.
    rewrite RunFacts.run_unfold. unfold try_except. rewrite Ht.
    rewrite (RunOutcomes.ask_raises_exception _ _ _ _ _ _ _ _ Hask).
    rewrite (RunFacts.run_except_ready e n).
    + reflexivity.
    + apply RunFacts.logger_ready_sent, Hn.
Qed.

Lemma valid_question_sends_one_request_witness :
  sent (snd (Main.run Examples.answering (py "ask.json") initial_state))
  = sent initial_state
    ++ [ {| req_model := py "gpt-4";
            req_messages := [ {| role := py "user";
                                 content := PyStr.strip (py "  What is Rocq? ") |} ];
            req_temperature := Qmake 1 2 |} ].
Proof.
  apply (valid_question_sends_one_request Examples.answering (py "ask.json")
           {[ py "question" := PyStr (py "  What is Rocq? ") ]} (py "  What is Rocq? ")
           initial_state).
  - vm_compute. reflexivity.
  - vm_compute. reflexivity.
  - vm_compute. discriminate.
  - vm_compute. discriminate.
Defined.

(** C3, as stated, fails for a malformed response: when the endpoint returns
    a completion with no choices, [ask] lets the [IndexError] of
    [choices[0]] escape; it is not re-raised as a [RuntimeError] (the
    source's class for the spec's RemoteServiceError). *)
Lemma empty_choice_list_escapes_as_IndexError :
  remote Examples.choiceless (py "sk-test")
    (AgentFacts.ask_request (py "hi") (py "gpt-4") (Qmake 1 2))
  = CreateReturns {| resp_id := py "chatcmpl-2"; resp_model := py "gpt-4"; choices := [] |}
  /\ CodeGuardianAgent.ask Examples.choiceless Examples.test_agent (py "hi")
       (py "gpt-4") (Qmake 1 2) initial_state
     = (Raise (Exc IndexError (py "list index out of range")),
        CodeGuardianAgent.record_sent
          (AgentFacts.ask_request (py "hi") (py "gpt-4") (Qmake 1 2)) initial_state)
  /\ Exc IndexError (py "list index out of range")
     <> Exc RuntimeError
          (py "OpenAI API error: " ++ py "list index out of range").
Proof. vm_compute. repeat split. discriminate. Qed.

(** C3, amended: every [OpenAIError] the exchange raises -- the class under
    which the client library reports authentication, rate-limit, connection
    and response-validation failures -- is caught by [ask] and re-raised as
    one [RuntimeError] whose message is ["OpenAI API error: "] followed by
    the cause's description: that, and no other exception, leaves [ask]. *)
Theorem openai_error_reraised_as_RuntimeError
    (w : world) (self : CodeGuardianAgent.t) (prompt model : pystr) (temperature : Q)
    (st : state) (k : openai_error) (msg : pystr) :
  remote w (CodeGuardianAgent.client_api_key (CodeGuardianAgent.client self))
    (AgentFacts.ask_request prompt model temperature)
  = CreateRaises (OpenAIErr k) msg ->
  fst (CodeGuardianAgent.ask w self prompt model temperature st)
  = Raise (Exc RuntimeError (py "OpenAI API error: " ++ msg)).
Proof.
  intros H. rewrite (AgentFacts.ask_openai_error _ _ _ _ _ _ _ _ H). reflexivity.
Qed.

Lemma openai_error_reraised_as_RuntimeError_witness :
  fst (CodeGuardianAgent.ask Examples.rate_limited Examples.test_agent (py "hi")
         (py "gpt-4") (Qmake 1 2) initial_state)
  = Raise (Exc RuntimeError (py "OpenAI API error: " ++ py "Rate limit reached")).
Proof.
  apply (openai_error_reraised_as_RuntimeError Examples.rate_limited Examples.test_agent
           (py "hi") (py "gpt-4") (Qmake 1 2) initial_state RateLimitError
           (py "Rate limit reached")).
  vm_compute. reflexivity.
Defined.

(** C5: constructing the agent raises [ValueError("Missing OpenAI API key.")]
    (the source's class for the spec's ConfigurationError) exactly when
    neither the argument nor the environment variable holds a non-empty
    credential; otherwise it returns an agent holding the argument's
    credential, or the environment's when the argument has none.  Either
    way the state is untouched: no request has been sent. *)
Theorem construction_fails_iff_no_credential
    (w : world) (api_key : option pystr) (st : state) :
  (CodeGuardianAgent.truthy api_key
   || CodeGuardianAgent.truthy (getenv w (py "OPENAI_API_KEY")) = false
   <-> CodeGuardianAgent.__init__ w api_key st
       = (Raise (Exc ValueError (py "Missing OpenAI API key.")), st))
  /\ (CodeGuardianAgent.truthy api_key
      || CodeGuardianAgent.truthy (getenv w (py "OPENAI_API_KEY")) = true
      <-> exists k,
            CodeGuardianAgent.or_else api_key (getenv w (py "OPENAI_API_KEY")) = Some k
            /\ k <> []
            /\ CodeGuardianAgent.__init__ w api_key st
               = (Ret {| CodeGuardianAgent.api_key := k;
                         CodeGuardianAgent.client :=
                           {| CodeGuardianAgent.client_api_key := k |} |}, st))
  /\ snd (CodeGuardianAgent.__init__ w api_key st) = st.
Proof.
  unfold CodeGuardianAgent.__init__, CodeGuardianAgent.or_else, CodeGuardianAgent.truthy.
  destruct api_key as [[|c a]|]; cbn [PyStr.truthy orb negb];
    destruct (getenv w (py "OPENAI_API_KEY")) as [[|c' e]|]; cbn [PyStr.truthy orb negb];
    (split; [split; intros H; first [reflexivity | discriminate H]
            | split; [split;
                      [intros H; first [discriminate H
                                       | eexists; split; [reflexivity|];
                                         split; [discriminate | reflexivity]]
                      | intros [k [H1 [H2 H3]]];
                        first [reflexivity | discriminate H1 | discriminate H3
                              | injection H1 as <-; congruence]]
                     | reflexivity]]).
Qed.

(** C6: when the exchange returns a completion whose first choice carries
    text, [ask] returns that text trimmed: the text without a prefix and a
    suffix of white space, neither starting nor ending with white space.
    In particular, when the text is a core between runs of ASCII white
    space (spaces, tabs, line breaks) and the core has no white space at
    its ends, the answer is the core.  The other choices and the rest of
    the response have no part in the result, and the only trace in the
    state is the call. *)
Theorem ask_returns_trimmed_first_choice
    (w : world) (self : CodeGuardianAgent.t) (prompt model : pystr) (temperature : Q)
    (st : state) (r : response) (c : choice) (rest : list choice) (text : pystr) :
  remote w (CodeGuardianAgent.client_api_key (CodeGuardianAgent.client self))
    (AgentFacts.ask_request prompt model temperature)
  = CreateReturns r ->
  choices r = c :: rest ->
  msg_content (choice_message c) = Some text ->
  exists answer,
    CodeGuardianAgent.ask w self prompt model temperature st
    = (Ret answer,
       CodeGuardianAgent.record_sent (AgentFacts.ask_request prompt model temperature) st)
    /\ answer = PyStr.strip text
    /\ (exists pre post,
          text = pre ++ answer ++ post /\ PyStr.blank pre = true /\ PyStr.blank post = true)
    /\ (forall a l, answer = a :: l -> PyStr.isspace a = false)
    /\ (forall a l, answer = l ++ [a] -> PyStr.isspace a = false)
    /\ (forall pre core post,
          text = pre ++ core ++ post ->
          PyStr.ascii_blank pre = true ->
          PyStr.ascii_blank post = true ->
          (forall a l, core = a :: l -> PyStr.isspace a = false) ->
          (forall a l, core = l ++ [a] -> PyStr.isspace a = false) ->
          answer = core).
Proof.
  intros H Hc Ht. exists (PyStr.strip text).
  rewrite (AgentFacts.ask_text _ _ _ _ _ _ _ _ _ _ H Hc Ht).
  split; [reflexivity|]. split; [reflexivity|]. split; [apply PyStrFacts.strip_split|].
  split; [|split].
  - intros a l E. exact (PyStrFacts.strip_first _ _ _ E).
  - intros a l E. exact (PyStrFacts.strip_last _ _ _ E).
  - intros pre core post -> Hpre Hpost Hfirst Hlast.
    apply PyStrFacts.strip_unique; auto using PyStrFacts.ascii_blank_blank.
Qed.

Lemma ask_returns_trimmed_first_choice_witness :
  (exists answer,
     CodeGuardianAgent.ask Examples.answering_padded Examples.test_agent (py "hi")
       (py "gpt-4") (Qmake 1 2) initial_state
     = (Ret answer,
        CodeGuardianAgent.record_sent
          (AgentFacts.ask_request (py "hi") (py "gpt-4") (Qmake 1 2)) initial_state)
     /\ answer = PyStr.strip (py "  Hello, world. " ++ [9; 10])
     /\ (exists pre post,
           py "  Hello, world. " ++ [9; 10] = pre ++ answer ++ post
           /\ PyStr.blank pre = true /\ PyStr.blank post = true)
     /\ (forall a l, answer = a :: l -> PyStr.isspace a = false)
     /\ (forall a l, answer = l ++ [a] -> PyStr.isspace a = false)
     /\ (forall pre core post,
           py "  Hello, world. " ++ [9; 10] = pre ++ core ++ post ->
           PyStr.ascii_blank pre = true ->
           PyStr.ascii_blank post = true ->
           (forall a l, core = a :: l -> PyStr.isspace a = false) ->
           (forall a l, core = l ++ [a] -> PyStr.isspace a = false) ->
           answer = core))
  /\ PyStr.strip (py "  Hello, world. " ++ [9; 10]) = py "Hello, world."
  /\ length (choices Examples.padded) = 2%nat.
Proof.
  split; [|split; vm_compute; reflexivity].
  apply (ask_returns_trimmed_first_choice Examples.answering_padded Examples.test_agent
           (py "hi") (py "gpt-4") (Qmake 1 2) initial_state Examples.padded
           {| index := 0; finish_reason := py "stop";
              choice_message :=
                {| msg_role := py "assistant";
                   msg_content := Some (py "  Hello, world. " ++ [9; 10]) |} |}
           [ {| index := 1; finish_reason := py "stop";
                choice_message := {| msg_role := py "assistant";
                                     msg_content := Some (py "Good day.") |} |} ]
           (py "  Hello, world. " ++ [9; 10])); reflexivity.
Defined.

(** C7: when the file is missing or unreadable, or its content is not valid
    JSON, [load_json] raises the error of [open] or [json.load] unchanged;
    the process run on that path logs it, exits with status 1 and sends no
    request. *)
Theorem load_failure_exits_with_status_1
    (w : world) (script path : pystr) (st : state) (e : exn) :
  load_fails w path e ->
  Helpers.load_json w path st = (Raise e, Helpers.record_open path st)
  /\ is_ParseError e = true
  /\ exists st',
       Main.main w [script; path] st = (Raise (SystemExit 1), st')
       /\ exit_status (fst (Main.main w [script; path] st)) = 1%Z
       /\ sent st' = sent st
       /\ stdout st' = stdout st
       /\ exists n, stderr st' = stderr st ++ replicate (S n) (RunFacts.failure_record e).
Proof.
  intros [[k [msg [Hf ->]]] | [k [msg [Hf ->]]]].
  - split; [apply RunFacts.load_json_open_fails, Hf|]. split; [reflexivity|].
    destruct (RunOutcomes.run_caught_after_open w path st (OSErr k) msg
                (RunFacts.run_try_open_fails _ _ _ _ _ _ Hf)) as [n Hr].
    rewrite RunOutcomes.main_one_argument, Hr.
    eexists. repeat split. exists n. reflexivity.
  - split; [apply RunFacts.load_json_decode_fails, Hf|]. split; [reflexivity|].
    destruct (RunOutcomes.run_caught_after_open w path st (DecodeErr k) msg
                (RunFacts.run_try_decode_fails _ _ _ _ _ _ Hf)) as [n Hr].
    rewrite RunOutcomes.main_one_argument, Hr.
    eexists. repeat split. exists n. reflexivity.
Qed.

Lemma load_failure_exits_with_status_1_witness :
  Helpers.load_json Examples.answering (py "missing.json") initial_state
  = (Raise (Exc (OSErr FileNotFoundError) (py "[Errno 2] No such file or directory")),
     Helpers.record_open (py "missing.json") initial_state)
  /\ is_ParseError
       (Exc (OSErr FileNotFoundError) (py "[Errno 2] No such file or directory")) = true
  /\ exists st',
       Main.main Examples.answering [py "main.py"; py "missing.json"] initial_state
       = (Raise (SystemExit 1), st')
       /\ exit_status
            (fst (Main.main Examples.answering [py "main.py"; py "missing.json"]
                    initial_state)) = 1%Z
       /\ sent st' = sent initial_state
       /\ stdout st' = stdout initial_state
       /\ exists n,
            stderr st'
            = stderr initial_state
              ++ replicate (S n)
                   (RunFacts.failure_record
                      (Exc (OSErr FileNotFoundError)
                         (py "[Errno 2] No such file or directory"))).
Proof.
  apply (load_failure_exits_with_status_1 Examples.answering (py "main.py")
           (py "missing.json") initial_state).
  left. exists FileNotFoundError, (py "[Errno 2] No such file or directory").
  split; vm_compute; reflexivity.
Defined.

(** C8: when [sys.argv] does not hold exactly the script name and one
    argument, the script prints the usage line on standard output and exits
    with status 1; it opens no file, sends no request and logs nothing. *)
Theorem wrong_argument_count_prints_usage
    (w : world) (argv : list pystr) (st : state) :
  length argv <> 2%nat ->
  exists st',
    Main.main w argv st = (Raise (SystemExit 1), st')
    /\ exit_status (fst (Main.main w argv st)) = 1%Z
    /\ stdout st' = stdout st ++ py "Usage: python main.py <path_to_input.json>" ++ newline
    /\ opened st' = opened st
    /\ sent st' = sent st
    /\ stderr st' = stderr st
    /\ loggers st' = loggers st.
Proof.
  intros H. unfold Main.main.
  assert (Hn : Nat.eqb (length argv) 2 = false) by (apply Nat.eqb_neq; exact H).
  rewrite Hn. cbn [negb].
  assert (Hp : (print w Main.usage ;;; sys_exit 1) st
               = (Raise (SystemExit 1) : result unit,
                  {| stdout := stdout st ++ Main.usage ++ newline; stderr := stderr st;
                     opened := opened st; sent := sent st; loggers := loggers st |}))
    by reflexivity.
  rewrite (RunFacts.bind_Raise _ _ _ _ _ Hp).
  eexists. repeat split.
Qed.

Lemma wrong_argument_count_prints_usage_witness :
  exists st',
    Main.main Examples.answering [py "main.py"] initial_state = (Raise (SystemExit 1), st')
    /\ exit_status (fst (Main.main Examples.answering [py "main.py"] initial_state)) = 1%Z
    /\ stdout st'
       = stdout initial_state ++ py "Usage: python main.py <path_to_input.json>" ++ newline
    /\ opened st' = opened initial_state
    /\ sent st' = sent initial_state
    /\ stderr st' = stderr initial_state
    /\ loggers st' = loggers initial_state.
Proof.
  apply (wrong_argument_count_prints_usage Examples.answering [py "main.py"] initial_state).
  simpl. lia.
Defined.

(** C10: when the file holds valid JSON that is not an object, or an object
    whose ["question"] is not a string, the attribute access ([data.get] or
    [.strip]) raises an [AttributeError] inside the [try] block; it is
    caught by [except Exception], logged, and the process exits with status
    1 without sending a request. *)
Theorem non_object_or_non_string_question_exits_with_status_1
    (w : world) (script path : pystr) (v : pyval) (st : state) :
  files w path = inr (Decodes v) ->
  (RunFacts.is_dict v = false
   \/ exists d x, v = PyDict d /\ d !! py "question" = Some x /\ RunFacts.is_str x = false) ->
  exists st' culprit attr,
    Main.main w [script; path] st = (Raise (SystemExit 1), st')
    /\ exit_status (fst (Main.main w [script; path] st)) = 1%Z
    /\ sent st' = sent st
    /\ stdout st' = stdout st
    /\ is_Exception (no_attribute culprit attr) = true
    /\ exists n,
         stderr st'
         = stderr st ++ replicate (S n) (RunFacts.failure_record (no_attribute culprit attr)).
Proof.
  intros Hf [Hv | [d [x [-> [Hq Hx]]]]].
  - destruct (RunOutcomes.run_caught_after_open w path st AttributeError _
                (RunFacts.run_try_not_dict _ _ _ _ _ Hf Hv)) as [n Hr].
    rewrite RunOutcomes.main_one_argument.
    change (Exc AttributeError
              (py "'" ++ type_name v ++ py "' object has no attribute '" ++ py "get" ++ py "'"))
      with (no_attribute v "get") in Hr.
    rewrite Hr. eexists _, v, "get"%string.
    repeat split. exists n. reflexivity.
  - assert (Hx' : RunFacts.is_str (RunFacts.question_value d) = false)
      by (unfold RunFacts.question_value; rewrite Hq; exact Hx).
    destruct (RunOutcomes.run_caught_after_open w path st AttributeError _
                (RunFacts.run_try_not_str _ _ _ _ _ Hf Hx')) as [n Hr].
    rewrite RunOutcomes.main_one_argument.
    unfold RunFacts.question_value in Hr. rewrite Hq in Hr.
    change (Exc AttributeError
              (py "'" ++ type_name x ++ py "' object has no attribute '" ++ py "strip" ++ py "'"))
      with (no_attribute x "strip") in Hr.
    rewrite Hr. eexists _, x, "strip"%string.
    repeat split. exists n. reflexivity.
Qed.

Lemma non_object_or_non_string_question_exits_with_status_1_witness :
  exists st' culprit attr,
    Main.main Examples.answering [py "main.py"; py "number.json"] initial_state
    = (Raise (SystemExit 1), st')
    /\ exit_status
         (fst (Main.main Examples.answering [py "main.py"; py "number.json"] initial_state))
       = 1%Z
    /\ sent st' = sent initial_state
    /\ stdout st' = stdout initial_state
    /\ is_Exception (no_attribute culprit attr) = true
    /\ exists n,
         stderr st'
         = stderr initial_state
           ++ replicate (S n) (RunFacts.failure_record (no_attribute culprit attr)).
Proof.
  apply (non_object_or_non_string_question_exits_with_status_1 Examples.answering
           (py "main.py") (py "number.json")
           (PyDict {[ py "question" := PyInt 42 ]}) initial_state).
  - vm_compute. reflexivity.
  - right. exists {[ py "question" := PyInt 42 ]}, (PyInt 42).
    split; [reflexivity|]. split; vm_compute; reflexivity.
Defined.

(** C4, as stated, fails: a response can be received and the run still
    exit with status 1.  When the text of the response is one standard
    output cannot encode (here a lone surrogate under UTF-8), [print(answer)]
    raises inside the [try] block after the header is out: the error is
    logged and the process exits with status 1 with the header alone on
    standard output. *)
Lemma unencodable_answer_exits_1_after_header :
  remote Examples.unprintable (py "sk-test")
    (AgentFacts.ask_request (py "What is Rocq?") (py "gpt-4") (Qmake 1 2))
  = CreateReturns Examples.surrogate
  /\ hd_error (choices Examples.surrogate)
     = Some {| index := 0; finish_reason := py "stop";
               choice_message := {| msg_role := py "assistant";
                                    msg_content := Some [55296] |} |}
  /\ fst (Main.main Examples.unprintable [py "main.py"; py "ask.json"] initial_state)
     = Raise (SystemExit 1)
  /\ exit_status
       (fst (Main.main Examples.unprintable [py "main.py"; py "ask.json"] initial_state))
     = 1%Z
  /\ stdout (snd (Main.main Examples.unprintable [py "main.py"; py "ask.json"]
                    initial_state))
     = [10] ++ py "=== AI Response ===" ++ [10; 10]
  /\ stdout_encodes Examples.unprintable (PyStr.strip [55296]) = false.
Proof. vm_compute. repeat split. Qed.

(** C4, amended: when the input holds a question, the credential is set,
    the exchange returns a completion whose first choice carries text and
    standard output can encode the trimmed text, the process exits with
    status 0 and has written to standard output a line break, the header
    line [=== AI Response ===], an empty line, and the trimmed response text
    followed by a line break. *)
Theorem answer_printed_under_header
    (w : world) (script path : pystr) (d : gmap pystr pyval) (s : pystr) (st : state)
    (r : response) (c : choice) (rest : list choice) (text : pystr) :
  files w path = inr (Decodes (PyDict d)) ->
  d !! py "question" = Some (PyStr s) ->
  PyStr.strip s <> [] ->
  Settings.OPENAI_API_KEY w <> [] ->
  remote w (Settings.OPENAI_API_KEY w)
    (AgentFacts.ask_request (PyStr.strip s) (py "gpt-4") (Qmake 1 2))
  = CreateReturns r ->
  choices r = c :: rest ->
  msg_content (choice_message c) = Some text ->
  stdout_encodes w (PyStr.strip text) = true ->
  exists st',
    Main.main w [script; path] st = (Ret tt, st')
    /\ exit_status (fst (Main.main w [script; path] st)) = 0%Z
    /\ stdout st'
       = stdout st ++ [10] ++ py "=== AI Response ===" ++ [10]
           ++ [10] ++ PyStr.strip text ++ [10].
Proof.
  intros Hf Hq Hs Hk Hr Hc Ht He.
  assert (Hv : RunFacts.question_value d = PyStr s)
    by (unfold RunFacts.question_value; rewrite Hq; reflexivity).
  destruct (RunOutcomes.run_try_asks w path d s st Hf Hv Hs Hk) as [n [Htry Hn]].
  pose proof (AgentFacts.ask_text w (RunFacts.settings_agent w) (PyStr.strip s)
                CodeGuardianAgent.default_model CodeGuardianAgent.default_temperature
                (RunOutcomes.asking_state path (PyStr.strip s) n st) r c rest text
                Hr Hc Ht) as Hask.
  rewrite (RunFacts.bind_Ret _ _ _ _ _ Hask) in Htry.
  rewrite RunOutcomes.main_one_argument.
  destruct (RunOutcomes.run_after_answer w path st _ n (PyStr.strip text) Htry
              (RunFacts.logger_ready_sent n _ _ Hn))
    as [[_ Hrun] | [Hno _]]; [|congruence].
  rewrite Hrun. eexists. split; [reflexivity|]. split; [reflexivity|].
  unfold RunOutcomes.headed, write_stdout. cbn [stdout].
  change newline with [10]. unfold Main.header. change newline with [10].
  rewrite <- !app_assoc. reflexivity.
Qed.

Lemma answer_printed_under_header_witness :
  (exists st',
     Main.main Examples.answering_padded [py "main.py"; py "ask.json"] initial_state
     = (Ret tt, st')
     /\ exit_status
          (fst (Main.main Examples.answering_padded [py "main.py"; py "ask.json"]
                  initial_state))
        = 0%Z
     /\ stdout st'
        = stdout initial_state ++ [10] ++ py "=== AI Response ===" ++ [10]
            ++ [10] ++ PyStr.strip (py "  Hello, world. " ++ [9; 10]) ++ [10])
  /\ stdout (snd (Main.main Examples.answering_padded [py "main.py"; py "ask.json"]
                    initial_state))
     = [10] ++ py "=== AI Response ===" ++ [10; 10] ++ py "Hello, world." ++ [10].
Proof.
  split; [|vm_compute; reflexivity].
  apply (answer_printed_under_header Examples.answering_padded (py "main.py")
           (py "ask.json")
           {[ py "question" := PyStr (py "  What is Rocq? ") ]} (py "  What is Rocq? ")
           initial_state Examples.padded
           {| index := 0; finish_reason := py "stop";
              choice_message :=
                {| msg_role := py "assistant";
                   msg_content := Some (py "  Hello, world. " ++ [9; 10]) |} |}
           [ {| index := 1; finish_reason := py "stop";
                choice_message := {| msg_role := py "assistant";
                                     msg_content := Some (py "Good day.") |} |} ]
           (py "  Hello, world. " ++ [9; 10])).
  - vm_compute. reflexivity.
  - vm_compute. reflexivity.
  - vm_compute. discriminate.
  - vm_compute. discriminate.
  - reflexivity.
  - reflexivity.
  - reflexivity.
  - vm_compute. reflexivity.
Defined.

(** C9: two input files whose parsed objects agree on ["question"] (both
    lack it, or both map it to the same value) give runs with the same
    exit status, the same standard output, the same requests and the same
    log: no other key of the object has any influence. *)
Theorem other_keys_are_ignored
    (w : world) (path1 path2 : pystr) (d1 d2 : gmap pystr pyval) (st : state) :
  files w path1 = inr (Decodes (PyDict d1)) ->
  files w path2 = inr (Decodes (PyDict d2)) ->
  d1 !! py "question" = d2 !! py "question" ->
  behaviour (Main.run w path1 st) = behaviour (Main.run w path2 st).
Proof.
  intros H1 H2 Hq.
  assert (Hr : Frame.respects
                 (try_except (Frame.run_loaded w Settings.PROJECT_NAME (PyDict d2))
                    is_Exception (RunFacts.run_except Settings.PROJECT_NAME))).
  { apply Frame.respects_try_except;
      [apply Frame.respects_run_loaded | intros e; apply Frame.respects_run_except]. }
  assert (Hrun : forall p d, files w p = inr (Decodes (PyDict d)) ->
            d !! py "question" = d2 !! py "question" ->
            Main.run w p st
            = try_except (Frame.run_loaded w Settings.PROJECT_NAME (PyDict d2))
                is_Exception (RunFacts.run_except Settings.PROJECT_NAME)
                (Helpers.record_open p (LoggingFacts.ready st))).
  { intros p d Hf Hd. rewrite RunFacts.run_unfold, Frame.run_try_loaded.
    unfold try_except.
    rewrite (RunFacts.bind_Ret _ _ _ _ _ (RunFacts.load_json_decodes _ _ _ _ Hf)).
    rewrite (Frame.run_loaded_question w _ d d2 Hd). reflexivity. }
  rewrite (Hrun path1 d1 H1 Hq), (Hrun path2 d2 H2 eq_refl).
  destruct (Hr (Helpers.record_open path1 (LoggingFacts.ready st))
               (Helpers.record_open path2 (LoggingFacts.ready st)) eq_refl) as [Hres Hobs].
  unfold behaviour. rewrite Hres. unfold Frame.obs in Hobs.
  injection Hobs as -> -> -> _. reflexivity.
Qed.

Lemma other_keys_are_ignored_witness :
  behaviour (Main.run Examples.answering (py "ask.json") initial_state)
  = behaviour (Main.run Examples.answering (py "ask2.json") initial_state).
Proof.
  apply (other_keys_are_ignored Examples.answering (py "ask.json") (py "ask2.json")
           {[ py "question" := PyStr (py "  What is Rocq? ") ]}
           (<[ py "model" := PyStr (py "gpt-3.5") ]>
              {[ py "question" := PyStr (py "  What is Rocq? ") ]})
           initial_state).
  - vm_compute. reflexivity.
  - vm_compute. reflexivity.
  - vm_compute. reflexivity.
Defined.

(** * Further properties of the code *)

(** ** The shape of every run *)

Module RunShape.
Import Logging LoggingFacts RunFacts AgentFacts RunOutcomes.

(** The number of handlers a record of the project's logger reaches once
    [setup_logger] has run: the ones the logger had, or one when it had
    none, and those of the root logger. *)
Definition copies (st : state) : nat :=
  let n := handlers (lookup_logger Settings.PROJECT_NAME st) in
  ((if Nat.eqb n 0 then 1 else n) + handlers (lookup_logger root st))%nat.

(** The arguments [run] calls the client with for a question. *)
Definition run_request (question : pystr) : request :=
  ask_request question CodeGuardianAgent.default_model CodeGuardianAgent.default_temperature.

(** The state a run on [path] ends in, given the calls of the client it
    made, the records it logged and the text it printed. *)
Definition final_state (path : pystr) (st : state) (asked : list request)
    (logged : list log_record) (printed : pystr) : state :=
  {| stdout := stdout st ++ printed;
     stderr := stderr st ++ logged;
     opened := opened st ++ [path];
     sent := sent st ++ asked;
     loggers := loggers (ready st) |}.

(** The five ways a run ends, when a record of the project's logger reaches
    [c] handlers: an exception before the agent is asked, an empty
    question, an exception of [ask], an answer standard output cannot
    encode, or an answer printed. *)
Inductive run_ends (c : nat) : result unit -> list request -> list log_record -> pystr -> Prop :=
| ends_before_ask (e : exn) :
    is_Exception e = true ->
    run_ends c (Raise (SystemExit 1)) [] (replicate c (failure_record e)) []
| ends_no_question :
    run_ends c (Raise (SystemExit 1)) [] (replicate c no_question_record) []
| ends_ask_failed (s : pystr) (e : exn) :
    PyStr.strip s <> [] ->
    is_Exception e = true ->
    is_OpenAIError e = false ->
    run_ends c (Raise (SystemExit 1)) [run_request (PyStr.strip s)]
      (replicate c (sending_record (PyStr.strip s)) ++ replicate c (failure_record e)) []
| ends_print_failed (s msg : pystr) :
    PyStr.strip s <> [] ->
    run_ends c (Raise (SystemExit 1)) [run_request (PyStr.strip s)]
      (replicate c (sending_record (PyStr.strip s))
         ++ replicate c (failure_record (Exc UnicodeEncodeError msg)))
      (Main.header ++ newline)
| ends_answered (s answer : pystr) :
    PyStr.strip s <> [] ->
    run_ends c (Ret tt) [run_request (PyStr.strip s)]
      (replicate c (sending_record (PyStr.strip s)))
      (Main.header ++ newline ++ answer ++ newline).

Lemma copies_positive (st : state) : exists n, copies st = S n.
Proof.
  unfold copies. destruct (handlers (lookup_logger Settings.PROJECT_NAME st)) as [|n];
    simpl; eauto.
Qed.

Lemma logger_ready_copies (n : nat) (st : state) :
  copies st = S n -> logger_ready n (ready st).
Proof.
  intros H. unfold logger_ready.
  rewrite project_reached, ready_project, ready_root. cbn [level handlers].
  split; [reflexivity | exact H].
Qed.

Lemma state_eq (a b : state) :
  stdout a = stdout b -> stderr a = stderr b -> opened a = opened b ->
  sent a = sent b -> loggers a = loggers b -> a = b.
Proof. destruct a, b. cbn. intros -> -> -> -> ->. reflexivity. Qed.

Ltac final_eq :=
  apply state_eq;
  unfold final_state, asking_state, headed, write_stdout, emit, Helpers.record_open,
    CodeGuardianAgent.record_sent, ready, set_loggers;
  cbn [stdout stderr opened sent loggers fst snd];
  rewrite ?app_nil_r, <- ?app_assoc; reflexivity.

(** An [Exception] raised in the [try] block, in a state where a record
    reaches [S n] handlers. *)
Lemma run_caught_in (w : world) (path : pystr) (st st2 : state) (e : exn) (n : nat) :
  run_try w path Settings.PROJECT_NAME (ready st) = (Raise e, st2) ->
  is_Exception e = true ->
  logger_ready n st2 ->
  Main.run w path st
  = (Raise (SystemExit 1), emit (replicate (S n) (failure_record e)) st2).
Proof.
  intros Htry He Hn. rewrite run_unfold. unfold try_except. rewrite Htry, He.
  apply run_except_ready. exact Hn.
Qed.

(** Every run ends in one of the five ways, in the state they describe. *)
Lemma run_final (w : world) (path : pystr) (st : state) :
  exists r asked logged printed,
    Main.run w path st = (r, final_state path st asked logged printed)
    /\ run_ends (copies st) r asked logged printed.
Proof.
  destruct (copies_positive st) as [n Hc]. rewrite Hc.
  pose proof (logger_ready_copies n st Hc) as Hn.
  pose proof (logger_ready_open n path _ Hn) as Hno.
  assert (Hfail : forall e,
            run_try w path Settings.PROJECT_NAME (ready st)
            = (Raise e, Helpers.record_open path (ready st)) ->
            is_Exception e = true ->
            exists r asked logged printed,
              Main.run w path st = (r, final_state path st asked logged printed)
              /\ run_ends (S n) r asked logged printed).
  { intros e Ht He. exists (Raise (SystemExit 1)), [], (replicate (S n) (failure_record e)), [].
    split; [|apply ends_before_ask, He].
    rewrite (run_caught_in w path st _ e n Ht He Hno). f_equal. final_eq. }
  destruct (files w path) as [[k msg] | [k msg | v]] eqn:Hf.
  - apply (Hfail _ (run_try_open_fails _ _ _ _ _ _ Hf)). reflexivity.
  - apply (Hfail _ (run_try_decode_fails _ _ _ _ _ _ Hf)). reflexivity.
  - destruct (is_dict v) eqn:Hd.
    2:{ apply (Hfail _ (run_try_not_dict _ _ _ _ _ Hf Hd)). reflexivity. }
    destruct v as [| | | | | |d]; try discriminate Hd.
    destruct (is_str (question_value d)) eqn:Hs.
    2:{ apply (Hfail _ (run_try_not_str _ _ _ _ _ Hf Hs)). reflexivity. }
    destruct (question_value d) as [| | | |s| |] eqn:Hv; try discriminate Hs.
    pose proof (run_try_str w path Settings.PROJECT_NAME (ready st) d s Hf Hv) as Ht.
    destruct (PyStr.strip s) as [|a q] eqn:Hq.
    { rewrite (run_rest_empty w n _ Hno) in Ht.
      exists (Raise (SystemExit 1)), [], (replicate (S n) no_question_record), [].
      split; [|apply ends_no_question].
      rewrite (run_exits _ _ _ _ _ Ht). f_equal. final_eq. }
    destruct (credential w) as [k|] eqn:Hk.
    2:{ rewrite (run_rest_no_key w _ (a :: q) _) in Ht by (congruence || exact Hk).
        apply (Hfail _ Ht). reflexivity. }
    clear Ht.
    assert (Hq' : PyStr.strip s <> []) by (rewrite Hq; discriminate).
    pose proof (run_try_str w path Settings.PROJECT_NAME (ready st) d s Hf Hv) as Ht.
    rewrite (run_rest_asks_with w _ k n _ Hq' Hk Hno) in Ht.
    fold (asking_state path (PyStr.strip s) n st) in Ht.
    pose proof (logger_ready_emit n (replicate (S n) (sending_record (PyStr.strip s))) _ Hno)
      as Hna.
    fold (asking_state path (PyStr.strip s) n st) in Hna.
    pose proof (ask_state w (agent_with k) (PyStr.strip s)
                  CodeGuardianAgent.default_model CodeGuardianAgent.default_temperature
                  (asking_state path (PyStr.strip s) n st)) as Hst.
    destruct (CodeGuardianAgent.ask w (agent_with k) (PyStr.strip s) _ _ _)
      as [[answer|e] s2] eqn:Hask; cbn [snd] in Hst; subst s2.
    + rewrite (bind_Ret _ _ _ _ _ Hask) in Ht.
      destruct (run_after_answer w path st _ n answer Ht (logger_ready_sent n _ _ Hna))
        as [[_ Hrun] | [_ [msg Hrun]]].
      * exists (Ret tt), [run_request (PyStr.strip s)],
          (replicate (S n) (sending_record (PyStr.strip s))),
          (Main.header ++ newline ++ answer ++ newline).
        split; [|apply ends_answered, Hq'].
        rewrite Hrun. f_equal. final_eq.
      * exists (Raise (SystemExit 1)), [run_request (PyStr.strip s)],
          (replicate (S n) (sending_record (PyStr.strip s))
             ++ replicate (S n) (failure_record (Exc UnicodeEncodeError msg))),
          (Main.header ++ newline).
        split; [|apply ends_print_failed, Hq'].
        rewrite Hrun. f_equal. final_eq.
    + rewrite (bind_Raise _ _ _ _ _ Hask) in Ht.
      pose proof (ask_raises_exception _ _ _ _ _ _ _ _ Hask) as He.
      pose proof (ask_no_openai_error_escapes _ _ _ _ _ _ _ _ Hask) as Ho.
      exists (Raise (SystemExit 1)), [run_request (PyStr.strip s)],
        (replicate (S n) (sending_record (PyStr.strip s))
           ++ replicate (S n) (failure_record e)), [].
      split; [|apply ends_ask_failed; assumption].
      rewrite (run_caught_in w path st _ e n Ht He).
      * f_equal. final_eq.
      * apply logger_ready_sent, Hna.
Qed.

End RunShape.

(** ** More concrete worlds *)

Module MoreExamples.

(** A completion whose first choice has no text (as for a tool call). *)
Definition textless : response :=
  {| resp_id := py "chatcmpl-3"; resp_model := py "gpt-4";
     choices := [ {| index := 0; finish_reason := py "tool_calls";
                     choice_message := {| msg_role := py "assistant";
                                          msg_content := None |} |} ] |}.

(** The files of [Examples.some_files], and the same question without
    surrounding white space. *)
Definition more_files (path : pystr) : (os_error * pystr) + text_file :=
  if decide (path = py "tight.json") then
    inr (Decodes (PyDict {[ py "question" := PyStr (py "What is Rocq?") ]}))
  else Examples.some_files path.

Definition answering : world :=
  {| import_environ := Examples.with_key; environ := Examples.with_key;
     files := more_files;
     remote := fun _ _ => CreateReturns Examples.hello;
     stdout_rejects := Examples.utf8_strict; str_repr := Examples.repr_plain |}.

(** The call returns a completion without text. *)
Definition null_content : world :=
  {| import_environ := Examples.with_key; environ := Examples.with_key;
     files := more_files;
     remote := fun _ _ => CreateReturns textless;
     stdout_rejects := Examples.utf8_strict; str_repr := Examples.repr_plain |}.

(** The client raises an exception outside its own hierarchy. *)
Definition type_error : world :=
  {| import_environ := Examples.with_key; environ := Examples.with_key;
     files := more_files;
     remote := fun _ _ =>
       CreateRaises (OtherException (py "TypeError")) (py "unexpected keyword argument");
     stdout_rejects := Examples.utf8_strict; str_repr := Examples.repr_plain |}.

(** [OPENAI_API_KEY] is unset when the settings module is imported and set
    by the time the agent is constructed. *)
Definition key_set_later : world :=
  {| import_environ := ∅; environ := Examples.with_key;
     files := more_files;
     remote := fun _ _ => CreateReturns Examples.hello;
     stdout_rejects := Examples.utf8_strict; str_repr := Examples.repr_plain |}.

(** A state in which the root logger has a handler, as after
    [logging.basicConfig()]. *)
Definition root_configured : state :=
  {| stdout := []; stderr := []; opened := []; sent := [];
     loggers := {[ Logging.root := {| level := Logging.WARNING; handlers := 1 |} ]} |}.

End MoreExamples.

(** With a handler on the root logger each record of a run is written
    twice: by the project's handler and, through propagation, by the
    root's. *)
Example root_handler_doubles_the_records :
  stderr (snd (Main.run Examples.answering (py "blank.json") MoreExamples.root_configured))
  = [RunFacts.no_question_record; RunFacts.no_question_record].
Proof. vm_compute. reflexivity. Qed.

(** A credential set after the import of the settings module is found by
    [__init__]: the run asks the agent. *)
Example key_set_later_is_used :
  Settings.OPENAI_API_KEY MoreExamples.key_set_later = []
  /\ fst (Main.run MoreExamples.key_set_later (py "ask.json") initial_state) = Ret tt
  /\ length (create_calls (snd (Main.run MoreExamples.key_set_later (py "ask.json")
                                   initial_state))) = 1%nat.
Proof. vm_compute. repeat split. Qed.

(** The empty name and ["root"] are one logger. *)
Example empty_name_is_root :
  level (Logging.lookup_logger (py "root")
           (snd (Helpers.setup_logger Examples.answering (py "") (py "ERROR") initial_state)))
  = 40.
Proof. vm_compute. reflexivity. Qed.

(** ** The logger set-up *)

Module SetupFacts.
Import Logging LoggingFacts.

(** The handlers of a logger after [setup_logger]: one is added only when
    there was none. *)
Definition handlers_after (n : nat) : nat := if Nat.eqb n 0 then 1%nat else n.

(** The state [setup_logger] leaves for a level name that denotes [n]. *)
Definition configured (name : pystr) (n : N) (st : state) : state :=
  set_loggers
    (<[canon name := {| level := n;
                        handlers := handlers_after (handlers (lookup_logger name st)) |}]>
       (loggers st))
    st.

Lemma setup_logger_configured (w : world) (name lvl : pystr) (n : N) (st : state) :
  check_level lvl = Some n ->
  Helpers.setup_logger w name lvl st = (Ret (canon name), configured name n st).
Proof.
  intros Hl.
  unfold Helpers.setup_logger, bind, getLogger, setLevel, has_handlers, addHandler, ret.
  rewrite Hl. cbv beta iota. rewrite !canon_idem, !lookup_logger_canon.
  rewrite !lookup_logger_insert. cbn [handlers].
  unfold configured, handlers_after.
  set (h := handlers (lookup_logger name st)).
  destruct h as [|h]; cbn [Nat.eqb negb]; cbv beta iota.
  - rewrite lookup_logger_canon, lookup_logger_insert. cbn [handlers level].
    unfold set_loggers. cbn [loggers stdout stderr opened sent].
    rewrite !insert_insert_eq. reflexivity.
  - unfold set_loggers. cbn [loggers stdout stderr opened sent].
    rewrite !insert_insert_eq. reflexivity.
Qed.

Lemma configured_lookup (name : pystr) (n : N) (st : state) :
  lookup_logger name (configured name n st)
  = {| level := n; handlers := handlers_after (handlers (lookup_logger name st)) |}.
Proof. unfold configured. apply lookup_logger_insert. Qed.

Lemma handlers_after_idem (n : nat) : handlers_after (handlers_after n) = handlers_after n.
Proof. destruct n; reflexivity. Qed.

Lemma handlers_after_positive (n : nat) : exists k, handlers_after n = S k.
Proof. destruct n; simpl; eauto. Qed.

(** The level a logger with a level of its own filters at. *)
Lemma effective_level_own (logger : pystr) (st : state) :
  level (lookup_logger logger st) <> 0 ->
  effective_level logger st = level (lookup_logger logger st).
Proof.
  intros H. unfold effective_level. cbn [first_level].
  rewrite lookup_logger_canon.
  destruct (level (lookup_logger logger st) =? 0) eqn:E; [|reflexivity].
  apply N.eqb_eq in E. contradiction.
Qed.

End SetupFacts.

(** X1: called with a valid level name other than [NOTSET], [setup_logger]
    leaves the named logger filtering at that level with a handler: a
    message logged on it later at or above the level is written at least
    once, a message below the level is dropped.  Every other logger keeps
    its own level and handlers (the empty name and ["root"] being one
    logger), and nothing is written. *)
Theorem setup_logger_filters_at_the_level
    (w : world) (name lvl : pystr) (n : N) (st : state) :
  Logging.check_level lvl = Some n ->
  n <> 0 ->
  exists st',
    Helpers.setup_logger w name lvl st = (Ret (Logging.canon name), st')
    /\ (forall l msg exc, (n <= l)%N ->
        exists k,
          Logging.log (Logging.canon name) l msg exc st'
          = (Ret tt,
             Logging.emit
               (replicate (S k) {| rec_name := Logging.canon name; rec_level := l;
                                   rec_message := msg; rec_exc := exc |}) st'))
    /\ (forall l msg exc, (l < n)%N ->
        Logging.log (Logging.canon name) l msg exc st' = (Ret tt, st'))
    /\ (forall other, Logging.canon other <> Logging.canon name ->
        Logging.lookup_logger other st' = Logging.lookup_logger other st)
    /\ stdout st' = stdout st /\ stderr st' = stderr st
    /\ opened st' = opened st /\ sent st' = sent st.
Proof.
  intros Hl Hn. exists (SetupFacts.configured name n st).
  split; [apply SetupFacts.setup_logger_configured, Hl|].
  assert (Hlook : Logging.lookup_logger (Logging.canon name) (SetupFacts.configured name n st)
                  = {| level := n;
                       handlers := SetupFacts.handlers_after
                                     (handlers (Logging.lookup_logger name st)) |}).
  { rewrite LoggingFacts.lookup_logger_canon. apply SetupFacts.configured_lookup. }
  assert (Heff : Logging.effective_level (Logging.canon name)
                   (SetupFacts.configured name n st) = n).
  { rewrite SetupFacts.effective_level_own; rewrite Hlook; [reflexivity | exact Hn]. }
  split; [|split; [|split; [|repeat split]]].
  - intros l msg exc Hle. unfold Logging.log. rewrite Heff.
    apply N.leb_le in Hle. rewrite Hle.
    unfold Logging.reached_handlers. rewrite Hlook. cbn [handlers].
    destruct (SetupFacts.handlers_after_positive
                (handlers (Logging.lookup_logger name st))) as [k ->].
    cbn [Nat.add]. rewrite LoggingFacts.canon_idem. eexists. reflexivity.
  - intros l msg exc Hlt. unfold Logging.log. rewrite Heff.
    apply N.leb_gt in Hlt. rewrite Hlt. reflexivity.
  - intros other Ho. unfold SetupFacts.configured.
    apply LoggingFacts.lookup_logger_insert_ne. exact Ho.
Qed.

Lemma setup_logger_filters_at_the_level_witness :
  exists st',
    Helpers.setup_logger Examples.answering (py "audit") (py "ERROR") initial_state
    = (Ret (Logging.canon (py "audit")), st')
    /\ (forall l msg exc, (40 <= l)%N ->
        exists k,
          Logging.log (Logging.canon (py "audit")) l msg exc st'
          = (Ret tt,
             Logging.emit
               (replicate (S k) {| rec_name := Logging.canon (py "audit"); rec_level := l;
                                   rec_message := msg; rec_exc := exc |}) st'))
    /\ (forall l msg exc, (l < 40)%N ->
        Logging.log (Logging.canon (py "audit")) l msg exc st' = (Ret tt, st'))
    /\ (forall other, Logging.canon other <> Logging.canon (py "audit") ->
        Logging.lookup_logger other st' = Logging.lookup_logger other initial_state)
    /\ stdout st' = stdout initial_state /\ stderr st' = stderr initial_state
    /\ opened st' = opened initial_state /\ sent st' = sent initial_state.
Proof.
  apply (setup_logger_filters_at_the_level Examples.answering (py "audit") (py "ERROR") 40
           initial_state).
  - vm_compute. reflexivity.
  - discriminate.
Defined.

(** X2: calling [setup_logger] again on the same name, with the same or
    another valid level, never attaches a further handler; the logger ends
    at the level of the last call, and a call repeated with the same level
    changes nothing. *)
Theorem setup_logger_twice_keeps_one_handler
    (w : world) (name lvl1 lvl2 : pystr) (n1 n2 : N) (st : state) :
  Logging.check_level lvl1 = Some n1 ->
  Logging.check_level lvl2 = Some n2 ->
  handlers (Logging.lookup_logger name
              (snd (Helpers.setup_logger w name lvl2
                      (snd (Helpers.setup_logger w name lvl1 st)))))
  = handlers (Logging.lookup_logger name (snd (Helpers.setup_logger w name lvl1 st)))
  /\ level (Logging.lookup_logger name
              (snd (Helpers.setup_logger w name lvl2
                      (snd (Helpers.setup_logger w name lvl1 st)))))
     = n2
  /\ (n1 = n2 ->
      snd (Helpers.setup_logger w name lvl2 (snd (Helpers.setup_logger w name lvl1 st)))
      = snd (Helpers.setup_logger w name lvl1 st)).
Proof.
  intros H1 H2.
  rewrite (SetupFacts.setup_logger_configured w name lvl1 n1 st H1). cbn [snd].
  rewrite (SetupFacts.setup_logger_configured w name lvl2 n2 _ H2). cbn [snd].
  rewrite !SetupFacts.configured_lookup. cbn [level handlers].
  rewrite SetupFacts.handlers_after_idem.
  split; [reflexivity|]. split; [reflexivity|].
  intros ->. unfold SetupFacts.configured at 1.
  rewrite SetupFacts.configured_lookup. cbn [handlers].
  rewrite SetupFacts.handlers_after_idem.
  unfold SetupFacts.configured, Logging.set_loggers. cbn [loggers stdout stderr opened sent].
  rewrite insert_insert_eq. reflexivity.
Qed.

Lemma setup_logger_twice_keeps_one_handler_witness :
  handlers (Logging.lookup_logger (py "audit")
              (snd (Helpers.setup_logger Examples.answering (py "audit") (py "ERROR")
                      (snd (Helpers.setup_logger Examples.answering (py "audit") (py "INFO")
                              initial_state)))))
  = handlers (Logging.lookup_logger (py "audit")
                (snd (Helpers.setup_logger Examples.answering (py "audit") (py "INFO")
                        initial_state)))
  /\ level (Logging.lookup_logger (py "audit")
              (snd (Helpers.setup_logger Examples.answering (py "audit") (py "ERROR")
                      (snd (Helpers.setup_logger Examples.answering (py "audit") (py "INFO")
                              initial_state)))))
     = 40
  /\ (20 = 40 ->
      snd (Helpers.setup_logger Examples.answering (py "audit") (py "ERROR")
             (snd (Helpers.setup_logger Examples.answering (py "audit") (py "INFO")
                     initial_state)))
      = snd (Helpers.setup_logger Examples.answering (py "audit") (py "INFO") initial_state)).
Proof.
  apply (setup_logger_twice_keeps_one_handler Examples.answering (py "audit") (py "INFO")
           (py "ERROR") 20 40 initial_state); vm_compute; reflexivity.
Defined.

(** X3: called with a level name [logging] does not know, [setup_logger]
    raises [ValueError] with the message ["Unknown level: "] followed by
    the [repr] of the name, after the logger has been registered but before
    any handler is attached: the logger keeps the level and the handlers it
    had, and nothing is written. *)
Theorem setup_logger_unknown_level_raises
    (w : world) (name lvl : pystr) (st : state) :
  Logging.check_level lvl = None ->
  exists st',
    Helpers.setup_logger w name lvl st
    = (Raise (Exc ValueError (py "Unknown level: " ++ str_repr w lvl)), st')
    /\ Logging.lookup_logger name st' = Logging.lookup_logger name st
    /\ loggers st' !! Logging.canon name = Some (Logging.lookup_logger name st)
    /\ stdout st' = stdout st /\ stderr st' = stderr st
    /\ opened st' = opened st /\ sent st' = sent st.
Proof.
  intros Hl.
  unfold Helpers.setup_logger, bind, Logging.getLogger, Logging.setLevel.
  rewrite Hl. cbv beta iota. eexists. split; [reflexivity|].
  rewrite LoggingFacts.lookup_logger_insert.
  split; [reflexivity|]. split; [|repeat split].
  unfold Logging.set_loggers. cbn [loggers]. apply lookup_insert_eq.
Qed.

Lemma setup_logger_unknown_level_raises_witness :
  exists st',
    Helpers.setup_logger Examples.answering (py "audit") (py "verbose") initial_state
    = (Raise (Exc ValueError
                (py "Unknown level: " ++ str_repr Examples.answering (py "verbose"))), st')
    /\ Logging.lookup_logger (py "audit") st' = Logging.lookup_logger (py "audit") initial_state
    /\ loggers st' !! Logging.canon (py "audit")
       = Some (Logging.lookup_logger (py "audit") initial_state)
    /\ stdout st' = stdout initial_state /\ stderr st' = stderr initial_state
    /\ opened st' = opened initial_state /\ sent st' = sent initial_state.
Proof.
  apply (setup_logger_unknown_level_raises Examples.answering (py "audit") (py "verbose")
           initial_state).
  vm_compute. reflexivity.
Defined.

(** ** The agent client, however the call ends *)

(** X4: however the call ends, one call of [ask] calls the client's
    [create] exactly once -- with the given model and temperature and a
    single user message holding the prompt -- and changes nothing else: it
    neither prints nor logs, and [ask] itself never calls [create] again
    (what the client re-sends on its own inside that call is not counted). *)
Theorem ask_calls_create_exactly_once
    (w : world) (self : CodeGuardianAgent.t) (prompt model : pystr) (temperature : Q)
    (st : state) :
  create_calls (snd (CodeGuardianAgent.ask w self prompt model temperature st))
  = create_calls st ++ [ {| req_model := model;
                            req_messages := [ {| role := py "user"; content := prompt |} ];
                            req_temperature := temperature |} ]
  /\ stdout (snd (CodeGuardianAgent.ask w self prompt model temperature st)) = stdout st
  /\ stderr (snd (CodeGuardianAgent.ask w self prompt model temperature st)) = stderr st
  /\ opened (snd (CodeGuardianAgent.ask w self prompt model temperature st)) = opened st
  /\ loggers (snd (CodeGuardianAgent.ask w self prompt model temperature st)) = loggers st.
Proof.
  rewrite (AgentFacts.ask_state w self prompt model temperature st). repeat split.
Qed.

(** X5: no [OpenAIError] ever leaves [ask]: whatever it raises is an
    [Exception] outside the client's error hierarchy, so a caller's
    [except Exception] catches every failure of [ask]. *)
Theorem ask_raises_no_OpenAIError
    (w : world) (self : CodeGuardianAgent.t) (prompt model : pystr) (temperature : Q)
    (st st' : state) (e : exn) :
  CodeGuardianAgent.ask w self prompt model temperature st = (Raise e, st') ->
  is_OpenAIError e = false /\ is_Exception e = true.
Proof.
  intros H. split.
  - exact (AgentFacts.ask_no_openai_error_escapes _ _ _ _ _ _ _ _ H).
  - exact (RunOutcomes.ask_raises_exception _ _ _ _ _ _ _ _ H).
Qed.

Lemma ask_raises_no_OpenAIError_witness :
  is_OpenAIError (Exc RuntimeError (py "OpenAI API error: " ++ py "Rate limit reached")) = false
  /\ is_Exception (Exc RuntimeError (py "OpenAI API error: " ++ py "Rate limit reached"))
     = true.
Proof.
  apply (ask_raises_no_OpenAIError Examples.rate_limited Examples.test_agent (py "hi")
           (py "gpt-4") (Qmake 1 2) initial_state
           (CodeGuardianAgent.record_sent
              (AgentFacts.ask_request (py "hi") (py "gpt-4") (Qmake 1 2)) initial_state)).
  vm_compute. reflexivity.
Defined.

(** X6: an exception of the exchange that is not an [OpenAIError] is not
    wrapped: it leaves [ask] as it was raised, with its own message. *)
Theorem ask_propagates_other_exceptions
    (w : world) (self : CodeGuardianAgent.t) (prompt model : pystr) (temperature : Q)
    (st : state) (cls : exc_class) (msg : pystr) :
  remote w (CodeGuardianAgent.client_api_key (CodeGuardianAgent.client self))
    (AgentFacts.ask_request prompt model temperature)
  = CreateRaises cls msg ->
  is_OpenAIError (Exc cls msg) = false ->
  CodeGuardianAgent.ask w self prompt model temperature st
  = (Raise (Exc cls msg),
     CodeGuardianAgent.record_sent (AgentFacts.ask_request prompt model temperature) st).
Proof. intros H Hc. exact (AgentFacts.ask_other_error _ _ _ _ _ _ _ _ H Hc). Qed.

Lemma ask_propagates_other_exceptions_witness :
  CodeGuardianAgent.ask MoreExamples.type_error Examples.test_agent (py "hi")
    (py "gpt-4") (Qmake 1 2) initial_state
  = (Raise (Exc (OtherException (py "TypeError")) (py "unexpected keyword argument")),
     CodeGuardianAgent.record_sent
       (AgentFacts.ask_request (py "hi") (py "gpt-4") (Qmake 1 2)) initial_state).
Proof.
  apply (ask_propagates_other_exceptions MoreExamples.type_error Examples.test_agent
           (py "hi") (py "gpt-4") (Qmake 1 2) initial_state
           (OtherException (py "TypeError")) (py "unexpected keyword argument"));
    reflexivity.
Defined.

(** X7: a completion without a usable first choice makes [ask] fail with
    the plain Python error of the access, not with a [RuntimeError]: an
    [IndexError] when the list of choices is empty, an [AttributeError] on
    ['NoneType'] when the first choice has no text.  The call has been
    made all the same. *)
Theorem ask_fails_on_unusable_completion
    (w : world) (self : CodeGuardianAgent.t) (prompt model : pystr) (temperature : Q)
    (st : state) (r : response) :
  remote w (CodeGuardianAgent.client_api_key (CodeGuardianAgent.client self))
    (AgentFacts.ask_request prompt model temperature)
  = CreateReturns r ->
  (hd_error (choices r) = None \/
   exists c, hd_error (choices r) = Some c /\ msg_content (choice_message c) = None) ->
  exists e,
    CodeGuardianAgent.ask w self prompt model temperature st
    = (Raise e,
       CodeGuardianAgent.record_sent (AgentFacts.ask_request prompt model temperature) st)
    /\ (hd_error (choices r) = None ->
        e = Exc IndexError (py "list index out of range"))
    /\ (hd_error (choices r) <> None ->
        e = Exc AttributeError (py "'NoneType' object has no attribute 'strip'")).
Proof.
  intros H [Hc | [c [Hc Hn]]].
  - destruct (choices r) as [|c rest] eqn:E; [|discriminate Hc].
    exists AgentFacts.index_error.
    rewrite (AgentFacts.ask_no_choices _ _ _ _ _ _ _ H E).
    split; [reflexivity|]. split; [reflexivity | congruence].
  - destruct (choices r) as [|c' rest] eqn:E; [discriminate Hc|].
    injection Hc as ->.
    exists (no_attribute PyNone "strip").
    rewrite (AgentFacts.ask_null_content _ _ _ _ _ _ _ _ _ H E Hn).
    split; [reflexivity|]. split; [discriminate | reflexivity].
Qed.

Lemma ask_fails_on_unusable_completion_witness :
  exists e,
    CodeGuardianAgent.ask MoreExamples.null_content Examples.test_agent (py "hi")
      (py "gpt-4") (Qmake 1 2) initial_state
    = (Raise e,
       CodeGuardianAgent.record_sent
         (AgentFacts.ask_request (py "hi") (py "gpt-4") (Qmake 1 2)) initial_state)
    /\ (hd_error (choices MoreExamples.textless) = None ->
        e = Exc IndexError (py "list index out of range"))
    /\ (hd_error (choices MoreExamples.textless) <> None ->
        e = Exc AttributeError (py "'NoneType' object has no attribute 'strip'")).
Proof.
  apply (ask_fails_on_unusable_completion MoreExamples.null_content Examples.test_agent
           (py "hi") (py "gpt-4") (Qmake 1 2) initial_state MoreExamples.textless).
  - reflexivity.
  - right. eexists. split; reflexivity.
Defined.

(** ** The orchestrator, whatever the world holds *)

(** X8: for every argument list, world and state the script ends in one of
    two ways: it returns (exit status 0) or it leaves through [sys.exit(1)]
    (exit status 1).  No other exception, and no other status, leaves the
    process. *)
Theorem main_returns_or_exits_1 (w : world) (argv : list pystr) (st : state) :
  (fst (Main.main w argv st) = Ret tt /\ exit_status (fst (Main.main w argv st)) = 0%Z)
  \/ (fst (Main.main w argv st) = Raise (SystemExit 1)
      /\ exit_status (fst (Main.main w argv st)) = 1%Z).
Proof.
  destruct argv as [|script [|path [|extra argv]]]; try (right; split; reflexivity).
  rewrite RunOutcomes.main_one_argument.
  destruct (RunShape.run_final w path st) as [r [asked [logged [printed [-> Hends]]]]].
  cbn [fst]. destruct Hends; [right | right | right | right | left]; split; reflexivity.
Qed.

(** X9: a run opens the input path, once, and no other file -- also when it
    fails. *)
Theorem run_opens_only_the_input (w : world) (path : pystr) (st : state) :
  opened (snd (Main.run w path st)) = opened st ++ [path].
Proof.
  destruct (RunShape.run_final w path st) as [r [asked [logged [printed [-> _]]]]].
  reflexivity.
Qed.

(** X10: a run calls the client's [create] at most once.  When it does,
    the call asks model [gpt-4] at temperature 0.5 with a single user
    message, whose content is not empty and neither starts nor ends with
    white space. *)
Theorem run_calls_create_at_most_once (w : world) (path : pystr) (st : state) :
  create_calls (snd (Main.run w path st)) = create_calls st
  \/ exists q,
       create_calls (snd (Main.run w path st))
       = create_calls st
         ++ [ {| req_model := py "gpt-4";
                 req_messages := [ {| role := py "user"; content := q |} ];
                 req_temperature := Qmake 1 2 |} ]
       /\ q <> []
       /\ (forall a l, q = a :: l -> PyStr.isspace a = false)
       /\ (forall a l, q = l ++ [a] -> PyStr.isspace a = false).
Proof.
  destruct (RunShape.run_final w path st) as [r [asked [logged [printed [-> Hends]]]]].
  cbn [snd]. unfold create_calls, RunShape.final_state. cbn [sent].
  assert (Htrim : forall s, PyStr.strip s <> [] ->
            exists q,
              sent st ++ [RunShape.run_request (PyStr.strip s)]
              = sent st ++ [ {| req_model := py "gpt-4";
                                req_messages := [ {| role := py "user"; content := q |} ];
                                req_temperature := Qmake 1 2 |} ]
              /\ q <> []
              /\ (forall a l, q = a :: l -> PyStr.isspace a = false)
              /\ (forall a l, q = l ++ [a] -> PyStr.isspace a = false)).
  { intros s Hs. exists (PyStr.strip s). split; [reflexivity|]. split; [exact Hs|].
    split; intros a l E.
    - exact (PyStrFacts.strip_first _ _ _ E).
    - exact (PyStrFacts.strip_last _ _ _ E). }
  destruct Hends as [e He | | s e Hs He Ho | s msg Hs | s answer Hs].
  - left. apply app_nil_r.
  - left. apply app_nil_r.
  - right. exact (Htrim s Hs).
  - right. exact (Htrim s Hs).
  - right. exact (Htrim s Hs).
Qed.

(** X11: a run writes to standard output only once [ask] has returned an
    answer.  A run that exits with status 1 has printed nothing, or -- when
    [print(answer)] raised -- the header block alone, after one call of the
    client; a run that returns has printed the header block and the answer,
    after one call of the client. *)
Theorem run_prints_only_after_an_answer (w : world) (path : pystr) (st : state) :
  (fst (Main.run w path st) = Raise (SystemExit 1)
   /\ (stdout (snd (Main.run w path st)) = stdout st
       \/ (stdout (snd (Main.run w path st))
            = stdout st ++ [10] ++ py "=== AI Response ===" ++ [10; 10]
            /\ length (create_calls (snd (Main.run w path st)))
               = S (length (create_calls st)))))
  \/ (fst (Main.run w path st) = Ret tt
      /\ length (create_calls (snd (Main.run w path st))) = S (length (create_calls st))
      /\ exists answer,
           stdout (snd (Main.run w path st))
           = stdout st ++ [10] ++ py "=== AI Response ===" ++ [10; 10]
               ++ answer ++ [10]).
Proof.
  destruct (RunShape.run_final w path st) as [r [asked [logged [printed [-> Hends]]]]].
  cbn [fst snd]. unfold create_calls, RunShape.final_state. cbn [stdout sent].
  destruct Hends as [e He | | s e Hs He Ho | s msg Hs | s answer Hs].
  - left. split; [reflexivity|]. left. apply app_nil_r.
  - left. split; [reflexivity|]. left. apply app_nil_r.
  - left. split; [reflexivity|]. left. apply app_nil_r.
  - left. split; [reflexivity|]. right. split.
    + unfold Main.header. change newline with [10]. rewrite <- !app_assoc. reflexivity.
    + rewrite length_app. cbn [length]. lia.
  - right. split; [reflexivity|]. split.
    + rewrite length_app. cbn [length]. lia.
    + exists answer. unfold Main.header. change newline with [10].
      rewrite <- !app_assoc. reflexivity.
Qed.

(** X12: a run never fails silently: when it exits with status 1, the last
    record it wrote to the log is an [ERROR] record of the project's
    logger. *)
Theorem run_failure_is_logged
    (w : world) (path : pystr) (st : state) :
  fst (Main.run w path st) = Raise (SystemExit 1) ->
  exists before last,
    stderr (snd (Main.run w path st)) = stderr st ++ before ++ [last]
    /\ rec_level last = Logging.ERROR
    /\ rec_name last = Settings.PROJECT_NAME.
Proof.
  destruct (RunShape.run_final w path st) as [r [asked [logged [printed [-> Hends]]]]].
  cbn [fst snd]. unfold RunShape.final_state. cbn [stderr].
  destruct (RunShape.copies_positive st) as [n Hc]. rewrite Hc in Hends.
  destruct Hends as [e He | | s e Hs He Ho | s msg Hs | s answer Hs]; intros Hr.
  - exists (replicate n (RunFacts.failure_record e)), (RunFacts.failure_record e).
    rewrite replicate_S_end. repeat split.
  - exists (replicate n RunFacts.no_question_record), RunFacts.no_question_record.
    rewrite replicate_S_end. repeat split.
  - exists (replicate (S n) (RunFacts.sending_record (PyStr.strip s))
              ++ replicate n (RunFacts.failure_record e)), (RunFacts.failure_record e).
    rewrite (replicate_S_end n (RunFacts.failure_record e)), <- !app_assoc.
    repeat split.
  - exists (replicate (S n) (RunFacts.sending_record (PyStr.strip s))
              ++ replicate n (RunFacts.failure_record (Exc UnicodeEncodeError msg))),
      (RunFacts.failure_record (Exc UnicodeEncodeError msg)).
    rewrite (replicate_S_end n (RunFacts.failure_record (Exc UnicodeEncodeError msg))),
      <- !app_assoc.
    repeat split.
  - discriminate Hr.
Qed.

Lemma run_failure_is_logged_witness :
  exists before last,
    stderr (snd (Main.run Examples.answering (py "missing.json") initial_state))
    = stderr initial_state ++ before ++ [last]
    /\ rec_level last = Logging.ERROR
    /\ rec_name last = Settings.PROJECT_NAME.
Proof.
  apply (run_failure_is_logged Examples.answering (py "missing.json") initial_state).
  vm_compute. reflexivity.
Defined.

(** X13: a run leaves the project's logger at level [INFO] with the handlers
    it had, or one when it had none, and leaves every other logger alone; a
    second run in the same interpreter therefore attaches no further
    handler, and its messages are not duplicated. *)
Theorem run_keeps_the_handlers
    (w : world) (path : pystr) (st : state) :
  level (Logging.lookup_logger Settings.PROJECT_NAME (snd (Main.run w path st))) = Logging.INFO
  /\ handlers (Logging.lookup_logger Settings.PROJECT_NAME (snd (Main.run w path st)))
     = (if Nat.eqb (handlers (Logging.lookup_logger Settings.PROJECT_NAME st)) 0 then 1%nat
        else handlers (Logging.lookup_logger Settings.PROJECT_NAME st))
  /\ (forall w2 path2,
        handlers (Logging.lookup_logger Settings.PROJECT_NAME
                    (snd (Main.run w2 path2 (snd (Main.run w path st)))))
        = handlers (Logging.lookup_logger Settings.PROJECT_NAME (snd (Main.run w path st))))
  /\ (forall other, other <> Settings.PROJECT_NAME ->
        loggers (snd (Main.run w path st)) !! other = loggers st !! other).
Proof.
  assert (Hlook : forall w p s,
            Logging.lookup_logger Settings.PROJECT_NAME (snd (Main.run w p s))
            = {| level := Logging.INFO;
                 handlers := SetupFacts.handlers_after
                               (handlers (Logging.lookup_logger Settings.PROJECT_NAME s)) |}).
  { intros w0 p s.
    destruct (RunShape.run_final w0 p s) as [r [asked [logged [printed [-> _]]]]].
    cbn [snd]. exact (LoggingFacts.ready_project s). }
  rewrite !Hlook. cbn [level handlers].
  split; [reflexivity|]. split; [reflexivity|]. split.
  - intros w2 path2. rewrite (Hlook w2 path2). cbn [handlers].
    rewrite Hlook. cbn [handlers]. apply SetupFacts.handlers_after_idem.
  - intros other Ho.
    destruct (RunShape.run_final w path st) as [r [asked [logged [printed [-> _]]]]].
    cbn [snd]. unfold RunShape.final_state, LoggingFacts.ready, Logging.set_loggers.
    cbn [loggers]. apply lookup_insert_ne. congruence.
Qed.

(** X14: when the project's logger has at most one handler and the root
    logger has none -- in a fresh interpreter in particular -- every
    message of a run is written exactly once: a run ends in one of the five
    shapes of [run_ends] with one copy of each record, in the state
    [final_state] describes. *)
Theorem run_logs_each_message_once
    (w : world) (path : pystr) (st : state) :
  (handlers (Logging.lookup_logger Settings.PROJECT_NAME st) <= 1)%nat ->
  handlers (Logging.lookup_logger Logging.root st) = 0%nat ->
  exists r asked logged printed,
    Main.run w path st = (r, RunShape.final_state path st asked logged printed)
    /\ RunShape.run_ends 1 r asked logged printed.
Proof.
  intros Hh Hroot.
  assert (Hc : RunShape.copies st = 1%nat).
  { unfold RunShape.copies. rewrite Hroot.
    destruct (handlers (Logging.lookup_logger Settings.PROJECT_NAME st)) as [|[|n]];
      [reflexivity | reflexivity | lia]. }
  rewrite <- Hc. apply RunShape.run_final.
Qed.

Lemma run_logs_each_message_once_witness :
  exists r asked logged printed,
    Main.run Examples.answering (py "ask.json") initial_state
    = (r, RunShape.final_state (py "ask.json") initial_state asked logged printed)
    /\ RunShape.run_ends 1 r asked logged printed.
Proof.
  apply (run_logs_each_message_once Examples.answering (py "ask.json") initial_state).
  - vm_compute. lia.
  - vm_compute. reflexivity.
Defined.

(** X15: the credential of the agent [run] constructs is the value the
    settings module read from the environment at import when that is not
    empty, whatever the environment holds later; when it is unset or empty,
    it is the value of [OPENAI_API_KEY] at construction; only when that is
    unset or empty too does construction raise
    [ValueError("Missing OpenAI API key.")]. *)
Theorem run_agent_credential (w : world) (st : state) :
  match import_environ w !! py "OPENAI_API_KEY" with
  | Some (c :: k) =>
      CodeGuardianAgent.__init__ w (Some (Settings.OPENAI_API_KEY w)) st
      = (Ret {| CodeGuardianAgent.api_key := c :: k;
                CodeGuardianAgent.client :=
                  {| CodeGuardianAgent.client_api_key := c :: k |} |}, st)
  | _ =>
      match environ w !! py "OPENAI_API_KEY" with
      | Some (c :: k) =>
          CodeGuardianAgent.__init__ w (Some (Settings.OPENAI_API_KEY w)) st
          = (Ret {| CodeGuardianAgent.api_key := c :: k;
                    CodeGuardianAgent.client :=
                      {| CodeGuardianAgent.client_api_key := c :: k |} |}, st)
      | _ =>
          CodeGuardianAgent.__init__ w (Some (Settings.OPENAI_API_KEY w)) st
          = (Raise (Exc ValueError (py "Missing OpenAI API key.")), st)
      end
  end.
Proof.
  unfold Settings.OPENAI_API_KEY, getenv_default, CodeGuardianAgent.__init__, getenv,
    CodeGuardianAgent.or_else.
  destruct (import_environ w !! py "OPENAI_API_KEY") as [[|c k]|];
    destruct (environ w !! py "OPENAI_API_KEY") as [[|c' k']|]; reflexivity.
Qed.

(** X16: with a question in the input but [OPENAI_API_KEY] unset or empty,
    at the import of the settings and at the construction of the agent, a
    run logs the [ValueError] of the construction and exits with status 1;
    it prints nothing and sends no request. *)
Theorem run_without_credential_exits_1
    (w : world) (path : pystr) (d : gmap pystr pyval) (s : pystr) (st : state) :
  files w path = inr (Decodes (PyDict d)) ->
  d !! py "question" = Some (PyStr s) ->
  PyStr.strip s <> [] ->
  (import_environ w !! py "OPENAI_API_KEY" = None
   \/ import_environ w !! py "OPENAI_API_KEY" = Some (py "")) ->
  (environ w !! py "OPENAI_API_KEY" = None
   \/ environ w !! py "OPENAI_API_KEY" = Some (py "")) ->
  exists st',
    Main.run w path st = (Raise (SystemExit 1), st')
    /\ sent st' = sent st
    /\ stdout st' = stdout st
    /\ exists n,
         stderr st'
         = stderr st
           ++ replicate (S n)
                (RunFacts.failure_record (Exc ValueError (py "Missing OpenAI API key."))).
Proof.
  intros Hf Hq Hs Himp Henv.
  assert (Hk : RunFacts.credential w = None).
  { unfold RunFacts.credential, Settings.OPENAI_API_KEY, getenv_default, getenv,
      CodeGuardianAgent.or_else.
    destruct Himp as [-> | ->]; destruct Henv as [-> | ->]; reflexivity. }
  assert (Hv : RunFacts.question_value d = PyStr s)
    by (unfold RunFacts.question_value; rewrite Hq; reflexivity).
  pose proof (RunFacts.run_try_str w path Settings.PROJECT_NAME (LoggingFacts.ready st)
                d s Hf Hv) as Ht.
  rewrite (RunFacts.run_rest_no_key w _ _ _ Hs Hk) in Ht.
  destruct (RunOutcomes.ready_after_open path st) as [n Hn].
  rewrite (RunShape.run_caught_in w path st _ _ n Ht eq_refl Hn).
  eexists. split; [reflexivity|]. repeat split. exists n. reflexivity.
Qed.

Lemma run_without_credential_exits_1_witness :
  exists st',
    Main.run Examples.no_credential (py "ask.json") initial_state
    = (Raise (SystemExit 1), st')
    /\ sent st' = sent initial_state
    /\ stdout st' = stdout initial_state
    /\ exists n,
         stderr st'
         = stderr initial_state
           ++ replicate (S n)
                (RunFacts.failure_record (Exc ValueError (py "Missing OpenAI API key."))).
Proof.
  apply (run_without_credential_exits_1 Examples.no_credential (py "ask.json")
           {[ py "question" := PyStr (py "  What is Rocq? ") ]} (py "  What is Rocq? ")
           initial_state).
  - vm_compute. reflexivity.
  - vm_compute. reflexivity.
  - vm_compute. discriminate.
  - left. vm_compute. reflexivity.
  - left. vm_compute. reflexivity.
Defined.

(** X17: when the call of the client ends in an [OpenAIError], the run logs
    the question, then the [RuntimeError] that [ask] made of the error, and
    exits with status 1: nothing is printed, and the client's [create] has
    been called once (the requests the client re-sent inside that call are
    not counted). *)
Theorem run_logs_the_remote_failure
    (w : world) (path : pystr) (d : gmap pystr pyval) (s : pystr) (st : state)
    (k : openai_error) (msg : pystr) :
  files w path = inr (Decodes (PyDict d)) ->
  d !! py "question" = Some (PyStr s) ->
  PyStr.strip s <> [] ->
  Settings.OPENAI_API_KEY w <> [] ->
  remote w (Settings.OPENAI_API_KEY w)
    (AgentFacts.ask_request (PyStr.strip s) (py "gpt-4") (Qmake 1 2))
  = CreateRaises (OpenAIErr k) msg ->
  exists st',
    Main.run w path st = (Raise (SystemExit 1), st')
    /\ stdout st' = stdout st
    /\ create_calls st'
       = create_calls st ++ [AgentFacts.ask_request (PyStr.strip s) (py "gpt-4") (Qmake 1 2)]
    /\ exists n,
         stderr st'
         = stderr st
           ++ replicate (S n) (RunFacts.sending_record (PyStr.strip s))
           ++ replicate (S n)
                (RunFacts.failure_record
                   (Exc RuntimeError (py "OpenAI API error: " ++ msg))).
Proof.
  intros Hf Hq Hs Hk Hr.
  assert (Hv : RunFacts.question_value d = PyStr s)
    by (unfold RunFacts.question_value; rewrite Hq; reflexivity).
  destruct (RunOutcomes.run_try_asks w path d s st Hf Hv Hs Hk) as [n [Ht Hn]].
  pose proof (AgentFacts.ask_openai_error w (RunFacts.settings_agent w) (PyStr.strip s)
                CodeGuardianAgent.default_model CodeGuardianAgent.default_temperature
                (RunOutcomes.asking_state path (PyStr.strip s) n st) k msg Hr) as Hask.
  rewrite (RunFacts.bind_Raise _ _ _ _ _ Hask) in Ht.
  rewrite (RunShape.run_caught_in w path st _ _ n Ht eq_refl
             (RunFacts.logger_ready_sent n _ _ Hn)).
  eexists. split; [reflexivity|]. split; [reflexivity|]. split; [reflexivity|].
  exists n.
  exact (eq_sym (app_assoc (stderr st)
                   (replicate (S n) (RunFacts.sending_record (PyStr.strip s)))
                   (replicate (S n)
                      (RunFacts.failure_record
                         (Exc RuntimeError (py "OpenAI API error: " ++ msg)))))).
Qed.

Lemma run_logs_the_remote_failure_witness :
  exists st',
    Main.run Examples.rate_limited (py "ask.json") initial_state
    = (Raise (SystemExit 1), st')
    /\ stdout st' = stdout initial_state
    /\ create_calls st'
       = create_calls initial_state
         ++ [AgentFacts.ask_request (PyStr.strip (py "  What is Rocq? ")) (py "gpt-4")
               (Qmake 1 2)]
    /\ exists n,
         stderr st'
         = stderr initial_state
           ++ replicate (S n) (RunFacts.sending_record (PyStr.strip (py "  What is Rocq? ")))
           ++ replicate (S n)
                (RunFacts.failure_record
                   (Exc RuntimeError (py "OpenAI API error: " ++ py "Rate limit reached"))).
Proof.
  apply (run_logs_the_remote_failure Examples.rate_limited (py "ask.json")
           {[ py "question" := PyStr (py "  What is Rocq? ") ]} (py "  What is Rocq? ")
           initial_state RateLimitError (py "Rate limit reached")).
  - vm_compute. reflexivity.
  - vm_compute. reflexivity.
  - vm_compute. discriminate.
  - vm_compute. discriminate.
  - reflexivity.
Defined.

(** ** The question reaches the run through its trimmed text only *)

Module TrimFrame.
Import Frame.

Lemma respects_run_rest (w : world) (logger question : pystr) :
  respects (RunFacts.run_rest w logger question).
Proof.
  unfold RunFacts.run_rest. apply respects_bind.
  - destruct (negb (PyStr.truthy question)); [|apply respects_ret].
    apply respects_bind; [apply respects_log | intros _; apply respects_raise].
  - intros _. apply respects_bind; [apply respects_init|]. intros agent.
    apply respects_bind; [apply respects_log|]. intros _.
    apply respects_bind; [apply respects_ask|]. intros answer.
    apply respects_bind; [apply respects_print | intros _; apply respects_print].
Qed.

(** A run on an object whose question is the text [s]. *)
Lemma run_on_question (w : world) (path : pystr) (d : gmap pystr pyval) (s : pystr)
    (st : state) :
  files w path = inr (Decodes (PyDict d)) ->
  RunFacts.question_value d = PyStr s ->
  Main.run w path st
  = try_except (RunFacts.run_rest w Settings.PROJECT_NAME (PyStr.strip s)) is_Exception
      (RunFacts.run_except Settings.PROJECT_NAME)
      (Helpers.record_open path (LoggingFacts.ready st)).
Proof.
  intros Hf Hv. rewrite RunFacts.run_unfold. unfold try_except.
  rewrite (RunFacts.run_try_str w path _ _ d s Hf Hv). reflexivity.
Qed.

End TrimFrame.

(** X18: the question influences a run through its trimmed text only: two
    input objects whose questions ([data.get("question", "")], so the empty
    text when the key is missing) are strings with the same trimmed text
    give the same exit status, standard output, requests and log. *)
Theorem trimmed_question_decides_the_run
    (w : world) (path1 path2 : pystr) (d1 d2 : gmap pystr pyval) (s1 s2 : pystr)
    (st : state) :
  files w path1 = inr (Decodes (PyDict d1)) ->
  files w path2 = inr (Decodes (PyDict d2)) ->
  RunFacts.question_value d1 = PyStr s1 ->
  RunFacts.question_value d2 = PyStr s2 ->
  PyStr.strip s1 = PyStr.strip s2 ->
  behaviour (Main.run w path1 st) = behaviour (Main.run w path2 st).
Proof.
  intros H1 H2 Hv1 Hv2 Hs.
  rewrite (TrimFrame.run_on_question w path1 d1 s1 st H1 Hv1).
  rewrite (TrimFrame.run_on_question w path2 d2 s2 st H2 Hv2).
  rewrite Hs.
  assert (Hr : Frame.respects
                 (try_except
                    (RunFacts.run_rest w Settings.PROJECT_NAME (PyStr.strip s2))
                    is_Exception (RunFacts.run_except Settings.PROJECT_NAME))).
  { apply Frame.respects_try_except;
      [apply TrimFrame.respects_run_rest | intros e; apply Frame.respects_run_except]. }
  destruct (Hr (Helpers.record_open path1 (LoggingFacts.ready st))
               (Helpers.record_open path2 (LoggingFacts.ready st)) eq_refl) as [Hres Hobs].
  unfold behaviour. rewrite Hres. unfold Frame.obs in Hobs.
  injection Hobs as -> -> -> _. reflexivity.
Qed.

Lemma trimmed_question_decides_the_run_witness :
  behaviour (Main.run MoreExamples.answering (py "ask.json") initial_state)
  = behaviour (Main.run MoreExamples.answering (py "tight.json") initial_state).
Proof.
  apply (trimmed_question_decides_the_run MoreExamples.answering (py "ask.json")
           (py "tight.json")
           {[ py "question" := PyStr (py "  What is Rocq? ") ]}
           {[ py "question" := PyStr (py "What is Rocq?") ]}
           (py "  What is Rocq? ") (py "What is Rocq?") initial_state);
    vm_compute; reflexivity.
Defined.
